(** * pacur/httpserver: directory listings and the TLS bootstrap

    A shallow embedding of [main.go] (both variants of the source share the
    listing code; the second adds [selfCert] and the TLS branch of [main]).

    Go strings are byte sequences, so they are modelled by [string] (a list
    of 8-bit [ascii]); [len] is [String.length] and [<] on strings is the
    bytewise lexicographic [String.ltb].  The operating system and the gin
    context are explicit: file-system calls are answered by a record of
    functions, and the calls a handler makes on its [*gin.Context] are
    appended to a log carried by the context. *)

From Stdlib Require Import Bool Arith ZArith NArith List Lia.
From Stdlib Require Import Ascii String DecimalString.
From Stdlib Require Import Permutation Sorted.
Import ListNotations.

Local Open Scope list_scope.
Local Open Scope string_scope.

(* ================================================================== *)
(** ** Byte-string helpers standing for the Go [strings] package *)

Module GoStrings.

Definition char (n : nat) : string := String (ascii_of_nat n) EmptyString.

(** The double-quote byte, the newline byte and a space. *)
Definition dquote : string := char 34.
Definition newline : string := char 10.

Definition is_slash (c : ascii) : bool := Ascii.eqb c "/"%char.

(** [strings.HasSuffix s "/"]. *)
Fixpoint HasSuffix_slash (s : string) : bool :=
  match s with
  | EmptyString => false
  | String c EmptyString => is_slash c
  | String _ rest => HasSuffix_slash rest
  end.

(** [strings.HasPrefix s "/"]. *)
Definition HasPrefix_slash (s : string) : bool :=
  match s with
  | String c _ => is_slash c
  | EmptyString => false
  end.

(** [strings.Split s "/"]: the result is never empty. *)
Fixpoint Split (s : string) : list string :=
  match s with
  | EmptyString => [EmptyString]
  | String c rest =>
      if is_slash c then EmptyString :: Split rest
      else match Split rest with
           | [] => [String c EmptyString]
           | x :: xs => String c x :: xs
           end
  end.

(** [strings.Join elems "/"]. *)
Fixpoint Join (elems : list string) : string :=
  match elems with
  | [] => EmptyString
  | [x] => x
  | x :: rest => x ++ "/" ++ Join rest
  end.

(** [strings.Repeat " " n]. *)
Fixpoint spaces (n : nat) : string :=
  match n with
  | O => EmptyString
  | S k => String " "%char (spaces k)
  end.

(** A byte string free of the separator. *)
Fixpoint no_slash (s : string) : bool :=
  match s with
  | EmptyString => true
  | String c rest => negb (is_slash c) && no_slash rest
  end.

End GoStrings.

(* ================================================================== *)
(** ** [path/filepath] on a Unix host

  [Clean] follows the four rules of the package documentation: collapse
  repeated separators, drop [.] elements, cancel an inner [..] against the
  element before it, and drop a [..] that would climb above the root of a
  rooted path; the empty result is [.]. *)

Module Filepath.

Definition dot : string := ".".
Definition dotdot : string := "..".

(** One path element pushed on the (reversed) stack of kept elements. *)
Definition clean_step (rooted : bool) (st : list string) (elem : string)
  : list string :=
  if String.eqb elem EmptyString then st
  else if String.eqb elem dot then st
  else if String.eqb elem dotdot then
    match st with
    | top :: below =>
        if String.eqb top dotdot then dotdot :: st else below
    | [] => if rooted then [] else [dotdot]
    end
  else elem :: st.

Definition clean_elems (rooted : bool) (elems : list string) : list string :=
  rev (fold_left (clean_step rooted) elems []).

Definition Clean (path : string) : string :=
  let rooted := GoStrings.HasPrefix_slash path in
  let kept := GoStrings.Join (clean_elems rooted (GoStrings.Split path)) in
  let out := if rooted then "/" ++ kept else kept in
  if String.eqb out EmptyString then dot else out.

(** [filepath.FromSlash] is the identity where the separator is [/]. *)
Definition FromSlash (path : string) : string := path.

(** [filepath.Join a b]: empty leading elements are ignored, the rest is
    joined with the separator and cleaned. *)
Definition Join (a b : string) : string :=
  if negb (String.eqb a EmptyString) then Clean (a ++ "/" ++ b)
  else if negb (String.eqb b EmptyString) then Clean b
  else EmptyString.

(** The elements of a path, separators and empty elements dropped. *)
Definition elements (path : string) : list string :=
  filter (fun e => negb (String.eqb e EmptyString)) (GoStrings.Split path).

(** A path element that names a child: not empty, not [.] or [..], and
    free of separators. *)
Definition proper (e : string) : bool :=
  negb (String.eqb e EmptyString) && negb (String.eqb e dot)
  && negb (String.eqb e dotdot) && GoStrings.no_slash e.

(** What [filepath.Abs] returns: a rooted path that [Clean] leaves alone. *)
Definition is_abs_clean (path : string) : bool :=
  GoStrings.HasPrefix_slash path && String.eqb (Clean path) path.

(** Lexical containment: every element of [root] leads [path]. *)
Fixpoint is_prefix (xs ys : list string) : bool :=
  match xs, ys with
  | [], _ => true
  | x :: xs', y :: ys' => String.eqb x y && is_prefix xs' ys'
  | _ :: _, [] => false
  end.

Definition within (root path : string) : bool :=
  is_prefix (elements root) (elements path)
  && forallb proper (elements path).

End Filepath.

(* ================================================================== *)
(** ** The [fmt] verbs the listing uses

    [%-54s] and [%19s] pad with spaces up to a width counted in runes
    ([utf8.RuneCountInString]); [%d] prints a signed decimal. *)

Module Fmt.

Definition byte (c : ascii) : N := N_of_ascii c.

Definition between (lo hi : N) (c : ascii) : bool :=
  (lo <=? byte c)%N && (byte c <=? hi)%N.

(** The [first] table of [unicode/utf8]: for a leading byte, the length of
    the sequence it opens and the range accepted for its second byte;
    [None] is an invalid leading byte.  ASCII bytes are handled before. *)
Definition first (c : ascii) : option (nat * N * N) :=
  let b := byte c in
  if (b <? 194)%N then None
  else if (b <? 224)%N then Some (2, 128%N, 191%N)
  else if (b =? 224)%N then Some (3, 160%N, 191%N)
  else if (b <? 237)%N then Some (3, 128%N, 191%N)
  else if (b =? 237)%N then Some (3, 128%N, 159%N)
  else if (b <? 240)%N then Some (3, 128%N, 191%N)
  else if (b =? 240)%N then Some (4, 144%N, 191%N)
  else if (b <? 244)%N then Some (4, 128%N, 191%N)
  else if (b =? 244)%N then Some (4, 128%N, 143%N)
  else None.

(** [utf8.RuneCountInString]: a malformed or truncated sequence counts one
    rune for its first byte. *)
Fixpoint RuneCountInString (s : string) : nat :=
  match s with
  | EmptyString => 0
  | String c rest =>
      if (byte c <? 128)%N then S (RuneCountInString rest)
      else
        match first c, rest with
        | Some (size, lo, hi), String c1 r1 =>
            if negb (between lo hi c1) then S (RuneCountInString rest)
            else if Nat.eqb size 2 then S (RuneCountInString r1)
            else
              match r1 with
              | String c2 r2 =>
                  if negb (between 128 191 c2) then S (RuneCountInString rest)
                  else if Nat.eqb size 3 then S (RuneCountInString r2)
                  else
                    match r2 with
                    | String c3 r3 =>
                        if negb (between 128 191 c3)
                        then S (RuneCountInString rest)
                        else S (RuneCountInString r3)
                    | EmptyString => S (RuneCountInString rest)
                    end
              | EmptyString => S (RuneCountInString rest)
              end
        | _, _ => S (RuneCountInString rest)
        end
  end.

(** [%-Ns]: the text, then spaces up to [width] runes. *)
Definition pad_right (width : nat) (s : string) : string :=
  s ++ GoStrings.spaces (width - RuneCountInString s).

(** [%Ns]: spaces up to [width] runes, then the text. *)
Definition pad_left (width : nat) (s : string) : string :=
  GoStrings.spaces (width - RuneCountInString s) ++ s.

(** [%d] of an [int64]. *)
Definition decimal (z : Z) : string := NilZero.string_of_int (Z.to_int z).

(** A non-negative number in at least [width] digits, zero filled. *)
Fixpoint zeros (n : nat) : string :=
  match n with
  | O => EmptyString
  | S k => String "0"%char (zeros k)
  end.

Definition digits (width : nat) (z : Z) : string :=
  let d := decimal z in zeros (width - String.length d) ++ d.

End Fmt.

(* ================================================================== *)
(** ** [time.Time]

    An instant is a count of nanoseconds since the Unix epoch; a
    [time.Duration] is a count of nanoseconds.  [Format] renders the layout
    ["02-Jan-2006 15:04"] of the listing, in UTC. *)

Module Time.

Definition Time := Z.
Definition Duration := Z.

Definition Nanosecond : Duration := 1%Z.
Definition Second : Duration := (1000000000 * Nanosecond)%Z.
Definition Minute : Duration := (60 * Second)%Z.
Definition Hour : Duration := (60 * Minute)%Z.

Definition Add (t : Time) (d : Duration) : Time := (t + d)%Z.

(** Civil date of a day number (days since 1970-01-01), proleptic
    Gregorian calendar: (year, month 1..12, day 1..31). *)
Definition civil (days : Z) : Z * Z * Z :=
  let z := (days + 719468)%Z in
  let era := (z / 146097)%Z in
  let doe := (z - era * 146097)%Z in
  let yoe := ((doe - doe / 1460 + doe / 36524 - doe / 146096) / 365)%Z in
  let doy := (doe - (365 * yoe + yoe / 4 - yoe / 100))%Z in
  let mp := ((5 * doy + 2) / 153)%Z in
  let d := (doy - (153 * mp + 2) / 5 + 1)%Z in
  let m := (if mp <? 10 then mp + 3 else mp - 9)%Z in
  let y := (yoe + era * 400 + (if m <=? 2 then 1 else 0))%Z in
  (y, m, d).

Definition month_name (m : Z) : string :=
  match m with
  | 1 => "Jan" | 2 => "Feb" | 3 => "Mar" | 4 => "Apr"
  | 5 => "May" | 6 => "Jun" | 7 => "Jul" | 8 => "Aug"
  | 9 => "Sep" | 10 => "Oct" | 11 => "Nov" | _ => "Dec"
  end%Z.

Definition Format (t : Time) : string :=
  let secs := (t / Second)%Z in
  let days := (secs / 86400)%Z in
  let rem := (secs mod 86400)%Z in
  let '(y, m, d) := civil days in
  Fmt.digits 2 d ++ "-" ++ month_name m ++ "-" ++ Fmt.digits 4 y ++ " "
  ++ Fmt.digits 2 (rem / 3600) ++ ":" ++ Fmt.digits 2 ((rem mod 3600) / 60).

End Time.

(* ================================================================== *)
(** ** The [os] package: errors, file modes, file information and the
    file-system calls of the handler *)

Module Os.

Inductive error : Type :=
| ErrNotExist
| ErrPermission
| ErrOther (msg : string).

Definition IsNotExist (e : error) : bool :=
  match e with
  | ErrNotExist => true
  | _ => false
  end.

(** A Go call returning [(value, error)]. *)
Inductive result (A : Type) : Type :=
| Ok (a : A)
| Err (e : error).
Arguments Ok {A} a.
Arguments Err {A} e.

(** [os.FileMode] bits, a 32-bit word. *)
Definition ModeDir : Z := Z.shiftl 1 31.
Definition ModeSymlink : Z := Z.shiftl 1 27.

Record FileInfo : Type := mkFileInfo {
  Name : string;
  Size : Z;
  Mode : Z;
  ModTime : Time.Time
}.

(** [fi.IsDir()] is [fi.Mode()&ModeDir != 0]. *)
Definition IsDir (fi : FileInfo) : bool :=
  negb (Z.eqb (Z.land (Mode fi) ModeDir) 0).

(** [fi.Mode()&os.ModeSymlink != 0]. *)
Definition is_symlink (fi : FileInfo) : bool :=
  negb (Z.eqb (Z.land (Mode fi) ModeSymlink) 0).

(** The answers of the operating system: [os.Stat] follows links,
    [os.Lstat] does not, [os.Readlink] returns the text stored in a link,
    [ioutil.ReadDir] returns the [Lstat] information of the children. *)
Record FileSystem : Type := mkFileSystem {
  Stat : string -> result FileInfo;
  Lstat : string -> result FileInfo;
  Readlink : string -> result string;
  ReadDir : string -> result (list FileInfo)
}.

End Os.

(* ================================================================== *)
(** ** [Item], [Items] and the [sort.Interface] of the listing *)

Record Item : Type := mkItem {
  Name : string;
  IsDir : bool;
  Formatted : string
}.

(** A Go call either returns or panics. *)
Inductive outcome (A : Type) : Type :=
| Returned (a : A)
| Panicked.
Arguments Returned {A} a.
Arguments Panicked {A}.

(** [name[:1] == "."]; slicing an empty string past its end panics. *)
Definition hidden (name : string) : outcome bool :=
  match name with
  | EmptyString => Panicked
  | String c _ => Returned (Ascii.eqb c "."%char)
  end.

(** [Items.Less], on the two items at the indices compared. *)
Definition Less (a b : Item) : outcome bool :=
  let iDir := IsDir a in
  let jDir := IsDir b in
  match hidden (Name a), hidden (Name b) with
  | Returned iHidden, Returned jHidden =>
      if iDir && negb jDir then Returned true
      else if negb iDir && jDir then Returned false
      else if iHidden && negb jHidden then Returned true
      else if negb iHidden && jHidden then Returned false
      else Returned (String.ltb (Name a) (Name b))
  | _, _ => Panicked
  end.

(** [sort.Sort] is the library's; it is modelled by insertion driven by
    [Less] (a list of fewer than two items is never compared).  The
    theorems below show that the result does not depend on this choice. *)
Fixpoint insert (x : Item) (sorted : list Item) : outcome (list Item) :=
  match sorted with
  | [] => Returned [x]
  | y :: rest =>
      match Less x y with
      | Panicked => Panicked
      | Returned true => Returned (x :: y :: rest)
      | Returned false =>
          match insert x rest with
          | Panicked => Panicked
          | Returned rest' => Returned (y :: rest')
          end
      end
  end.

Fixpoint Sort (items : list Item) : outcome (list Item) :=
  match items with
  | [] => Returned []
  | x :: rest =>
      match Sort rest with
      | Panicked => Panicked
      | Returned sorted => insert x sorted
      end
  end.

(** [Items.Join]. *)
Fixpoint Items_Join (items : list Item) (sep : string) : string :=
  match items with
  | [] => EmptyString
  | [item] => Formatted item
  | item :: rest => Formatted item ++ sep ++ Items_Join rest sep
  end.

(** The order of the specification, in its words: directories first, then
    hidden names first, then the names compared bytewise. *)
Definition starts_with_dot (name : string) : bool :=
  match name with
  | String c _ => Ascii.eqb c "."%char
  | EmptyString => false
  end.

Definition spec_before (a b : Item) : bool :=
  match IsDir a, IsDir b with
  | true, false => true
  | false, true => false
  | _, _ =>
      match starts_with_dot (Name a), starts_with_dot (Name b) with
      | true, false => true
      | false, true => false
      | _, _ => String.ltb (Name a) (Name b)
      end
  end.

(** Two items the order cannot tell apart. *)
Definition same_key (a b : Item) : Prop :=
  IsDir a = IsDir b /\ Name a = Name b.

(* ================================================================== *)
(** ** The gin context and [StaticHandler] *)

(** A call made on the [*gin.Context] (or on the file server it is handed
    to), in the order the handler makes them. *)
Inductive Call : Type :=
| HeaderAdd (key value : string)
| Redirect (code : Z) (location : string)
| Data (code : Z) (contentType data : string)
| AbortWithError (code : Z) (err : Os.error)
| ServeHTTP.

Record Context : Type := mkContext {
  Param_filepath : string;
  URL_Path : string;
  calls : list Call
}.

Definition call (c : Context) (k : Call) : Context :=
  mkContext (Param_filepath c) (URL_Path c) (calls c ++ [k]).

Record StaticHandler : Type := mkStaticHandler {
  Root : string;
  Cache : bool;
  ContentType : string
}.

(** The constant [body], a [Sprintf] format with three [%s] verbs. *)
Definition body (title heading listing : string) : string :=
  "<html>" ++ GoStrings.newline
  ++ "<head><title>Index of " ++ title ++ "</title></head>"
  ++ GoStrings.newline
  ++ "<body bgcolor=" ++ GoStrings.dquote ++ "white" ++ GoStrings.dquote
  ++ ">" ++ GoStrings.newline
  ++ "<h1>Index of " ++ heading ++ "</h1><hr><pre><a href="
  ++ GoStrings.dquote ++ "../" ++ GoStrings.dquote ++ ">../</a>"
  ++ GoStrings.newline
  ++ listing ++ "</pre><hr></body>" ++ GoStrings.newline
  ++ "</html>" ++ GoStrings.newline.

Definition IsDirectory (fs : Os.FileSystem) (path : string)
  : bool * option Os.error :=
  match Os.Stat fs path with
  | Os.Err e => if Os.IsNotExist e then (false, None) else (false, Some e)
  | Os.Ok stat => (Os.IsDir stat, None)
  end.

(** The name shown as link text (lines 186-189). *)
Definition formattedName (name : string) : string :=
  if Nat.ltb 50 (String.length name) then String.substring 0 47 name ++ "..>"
  else name.

(** The opening tag, [fmt.Sprintf(`<a href="%s">`, name)]. *)
Definition anchor (name : string) : string :=
  "<a href=" ++ GoStrings.dquote ++ name ++ GoStrings.dquote ++ ">".

(** [fmt.Sprintf("%-54s %s %19s", formattedName+"</a>", modTime, size)]. *)
Definition line (shown modTime size : string) : string :=
  Fmt.pad_right 54 (shown ++ "</a>") ++ " " ++ modTime ++ " "
  ++ Fmt.pad_left 19 size.

(** The end of the loop body (lines 178-197): the item added for the
    entry called [name], whose time was formatted as [modTime], from the
    file information [item] the loop holds at that point. *)
Definition entry (name modTime : string) (item : Os.FileInfo) : Item :=
  let dir := Os.IsDir item in
  let name := if dir then name ++ "/" else name in
  let size := if dir then "-" else Fmt.decimal (Os.Size item) in
  mkItem name dir (anchor name ++ line (formattedName name) modTime size).

(** What the loop of [HandleDirList] ends with. *)
Inductive scanned : Type :=
| Listed (items : list Item)
| IndexFound
| Failed (e : Os.error).

(** The loop over [itemsAll] (lines 152-198); [items] is the slice built
    so far, [Items.Add] appends to it. *)
Fixpoint scan (fs : Os.FileSystem) (path : string)
  (itemsAll : list Os.FileInfo) (items : list Item) : scanned :=
  match itemsAll with
  | [] => Listed items
  | item :: rest =>
      let name := Os.Name item in
      if String.eqb name "index.html" then IndexFound
      else
        let modTime := Time.Format (Os.ModTime item) in
        if Os.is_symlink item then
          match Os.Readlink fs (Filepath.Join path (Os.Name item)) with
          | Os.Err e => Failed e
          | Os.Ok linkPath =>
              match Os.Lstat fs linkPath with
              | Os.Err e =>
                  if Os.IsNotExist e then scan fs path rest items
                  else Failed e
              | Os.Ok itm =>
                  scan fs path rest (items ++ [entry name modTime itm])
              end
          end
        else scan fs path rest (items ++ [entry name modTime item])
  end.

(** The title path: the cleaned request path, slash-terminated. *)
Definition pathFrm (c : Context) : string :=
  let p := Filepath.Clean ("/" ++ Param_filepath c) in
  if negb (GoStrings.HasSuffix_slash p) then p ++ "/" else p.

(** [HandleDirList]: the context after the call and the results
    [(ok, err)], unless the sort panics. *)
Definition HandleDirList (fs : Os.FileSystem) (h : StaticHandler)
  (path : string) (c : Context) : outcome (Context * bool * option Os.error) :=
  let c :=
    if negb (GoStrings.HasSuffix_slash (URL_Path c))
    then call c (Redirect 301 (URL_Path c ++ "/"))
    else c in
  match Os.ReadDir fs path with
  | Os.Err e => Returned (c, false, Some e)
  | Os.Ok itemsAll =>
      match scan fs path itemsAll [] with
      | IndexFound => Returned (c, false, None)
      | Failed e => Returned (c, false, Some e)
      | Listed items =>
          match Sort items with
          | Panicked => Panicked
          | Returned sorted =>
              let data :=
                body (pathFrm c) (pathFrm c)
                     (Items_Join sorted GoStrings.newline) in
              Returned (call c (Data 200 "text/html" data), true, None)
          end
      end
  end.

(** The file-system path a request resolves to (lines 107-108). *)
Definition resolve (h : StaticHandler) (c : Context) : string :=
  Filepath.Join (Root h)
    (Filepath.FromSlash (Filepath.Clean ("/" ++ Param_filepath c))).

(** [StaticHandler.Handle]. *)
Definition Handle (fs : Os.FileSystem) (h : StaticHandler) (c : Context)
  : outcome Context :=
  let c :=
    if negb (Cache h) then
      call (call (call c
        (HeaderAdd "Cache-Control" "no-cache, no-store, must-revalidate"))
        (HeaderAdd "Pragma" "no-cache"))
        (HeaderAdd "Expires" "0")
    else c in
  let path := resolve h c in
  match IsDirectory fs path with
  | (_, Some err) => Returned (call c (AbortWithError 500 err))
  | (isDir, None) =>
      let serve (c : Context) : Context :=
        let c :=
          if negb (String.eqb (ContentType h) EmptyString)
          then call c (HeaderAdd "Content-Type" (ContentType h))
          else c in
        call c ServeHTTP in
      if isDir then
        match HandleDirList fs h path c with
        | Panicked => Panicked
        | Returned (c, _, Some err) =>
            Returned (call c (AbortWithError 500 err))
        | Returned (c, ok, None) =>
            if negb ok then Returned (serve c) else Returned c
        end
      else Returned (serve c)
  end.

(* ================================================================== *)
(** ** The TLS bootstrap: [selfCert] and [main]

    Key generation, randomness, the clock, the x509, pem and tls packages
    and the listener are outside the program.  A program is a tree of the
    calls it makes on them, each continued by the answer it receives; a
    [World] chooses the answers, so a statement about every world is a
    statement about every behaviour of the libraries. *)

Module X509.

Inductive Curve : Type := P224 | P256 | P384 | P521.

Record PrivateKey : Type := mkPrivateKey { secret : Z }.
Record PublicKey : Type := mkPublicKey { of_secret : Z }.

(** [key.Public()]. *)
Definition Public (k : PrivateKey) : PublicKey := mkPublicKey (secret k).

(** [x509.KeyUsage] is a bit set: [1 << iota] in declaration order. *)
Definition KeyUsageDigitalSignature : Z := Z.shiftl 1 0.
Definition KeyUsageContentCommitment : Z := Z.shiftl 1 1.
Definition KeyUsageKeyEncipherment : Z := Z.shiftl 1 2.

Inductive ExtKeyUsage : Type :=
| ExtKeyUsageAny
| ExtKeyUsageServerAuth
| ExtKeyUsageClientAuth
| ExtKeyUsageCodeSigning.

Inductive SignatureAlgorithm : Type :=
| UnknownSignatureAlgorithm
| SHA256WithRSA
| ECDSAWithSHA1
| ECDSAWithSHA256
| ECDSAWithSHA384
| ECDSAWithSHA512.

(** The fields of [x509.Certificate] the program sets. *)
Record Certificate : Type := mkCertificate {
  SerialNumber : Z;
  Subject_Organization : list string;
  NotBefore : Time.Time;
  NotAfter : Time.Time;
  KeyUsage : Z;
  ExtKeyUsages : list ExtKeyUsage;
  BasicConstraintsValid : bool;
  SigAlgorithm : SignatureAlgorithm
}.

End X509.

Module Boot.

Import X509.

Definition bytes : Type := list Z.

Record pem_Block : Type := mkBlock {
  Type_ : string;
  Bytes : bytes
}.

(** [tls.Certificate], as [tls.X509KeyPair] returns it. *)
Record tls_Certificate : Type := mkKeyPair {
  chain : bytes;
  key : bytes
}.

Definition VersionTLS12 : Z := 771.

Record tls_Config : Type := mkConfig {
  MinVersion : Z;
  MaxVersion : Z;
  Certificates : list tls_Certificate
}.

Record Listener : Type := mkListener { fd : Z }.

(** The calls on the outside, indexed by the type of their answer. *)
Inductive Event : Type -> Type :=
| Abs (path : string) : Event (Os.result string)
| Printf (text : string) : Event unit
| GenerateKey (c : Curve) : Event (Os.result PrivateKey)
| RandInt (max : Z) : Event (Os.result Z)
| Now : Event Time.Time
| CreateCertificate (template parent : Certificate) (pub : PublicKey)
    (priv : option PrivateKey) : Event (Os.result bytes)
| ParseCertificate (der : bytes) : Event (Os.result Certificate)
| MarshalECPrivateKey (k : PrivateKey) : Event (Os.result bytes)
| EncodeToMemory (b : pem_Block) : Event bytes
| X509KeyPair (certPEM keyPEM : bytes) : Event (Os.result tls_Certificate)
| Listen (network addr : string) (config : tls_Config)
    : Event (Os.result Listener)
| Serve (l : Listener) : Event (option Os.error)
| ListenAndServe (addr : string) : Event (option Os.error).

(** A Go computation: it returns, panics, or makes a call and goes on
    with the answer. *)
Inductive Prog (A : Type) : Type :=
| Ret (a : A)
| Panic (e : Os.error)
| Vis (X : Type) (ev : Event X) (k : X -> Prog A).
Arguments Ret {A} a.
Arguments Panic {A} e.
Arguments Vis {A X} ev k.

Fixpoint bind {A B : Type} (p : Prog A) (f : A -> Prog B) : Prog B :=
  match p with
  | Ret a => f a
  | Panic e => Panic e
  | Vis ev k => Vis ev (fun x => bind (k x) f)
  end.

Definition ask {X : Type} (ev : Event X) : Prog X := Vis ev Ret.

Notation "x <- p ;; q" := (bind p (fun x => q))
  (at level 61, p at next level, right associativity).
Notation "' pat <- p ;; q" := (bind p (fun x => match x with pat => q end))
  (at level 61, pat pattern, p at next level, right associativity).

(** [v, err := call; if err != nil { panic(err) }]. *)
Definition must {A : Type} (ev : Event (Os.result A)) : Prog A :=
  r <- ask ev ;;
  match r with
  | Os.Ok a => Ret a
  | Os.Err e => Panic e
  end.

(** [selfCert]; a result [Err] is the early [return] with [err] set. *)
Definition selfCert (parent : option Certificate)
  (parentKey : option PrivateKey)
  : Prog (Os.result (Certificate * bytes * PrivateKey)) :=
  r <- ask (GenerateKey P384) ;;
  match r with
  | Os.Err err => Ret (Os.Err err)
  | Os.Ok certKey =>
      let serialLimit := Z.shiftl 1 128 in
      r <- ask (RandInt serialLimit) ;;
      match r with
      | Os.Err err => Ret (Os.Err err)
      | Os.Ok serial =>
          now1 <- ask Now ;;
          now2 <- ask Now ;;
          let certTempl :=
            mkCertificate serial ["Pacur HTTP Server"]
              (Time.Add now1 (-24 * Time.Hour)%Z)
              (Time.Add now2 (26280 * Time.Hour)%Z)
              (Z.lor KeyUsageKeyEncipherment KeyUsageDigitalSignature)
              [ExtKeyUsageServerAuth] true ECDSAWithSHA256 in
          let '(parent, parentKey) :=
            match parent with
            | None => (certTempl, Some certKey)
            | Some p => (p, parentKey)
            end in
          r <- ask (CreateCertificate certTempl parent (Public certKey)
                      parentKey) ;;
          match r with
          | Os.Err err => Ret (Os.Err err)
          | Os.Ok certByt =>
              r <- ask (ParseCertificate certByt) ;;
              match r with
              | Os.Err err => Ret (Os.Err err)
              | Os.Ok cert => Ret (Os.Ok (cert, certByt, certKey))
              end
          end
      end
  end.

(** [v, err := f(); if err != nil { panic(err) }] for a Go function. *)
Definition must_ok {A : Type} (p : Prog (Os.result A)) : Prog A :=
  r <- p ;;
  match r with
  | Os.Ok a => Ret a
  | Os.Err e => Panic e
  end.

(** [fmt.Sprintf("%s:%d", host, port)]. *)
Definition address (host : string) (port : Z) : string :=
  host ++ ":" ++ Fmt.decimal port.

(** [main] from [filepath.Abs] on, given the parsed flags (the router is
    configuration only and makes no call on the outside). *)
Definition main (path host : string) (port : Z) (tlsServer : bool)
  : Prog unit :=
  path <- must (Abs path) ;;
  let scheme := if tlsServer then "https" else "http" in
  _ <- ask (Printf ("Listening and serving " ++ path ++ " on " ++ scheme
                    ++ "://" ++ address host port ++ GoStrings.newline)) ;;
  let Addr := address host port in
  if tlsServer then
    '(caCert, _, caKey) <- must_ok (selfCert None None) ;;
    '(_, certByt, certKey) <- must_ok (selfCert (Some caCert) (Some caKey)) ;;
    certKeyByte <- must (MarshalECPrivateKey certKey) ;;
    keyPem <- ask (EncodeToMemory (mkBlock "EC PRIVATE KEY" certKeyByte)) ;;
    certPem <- ask (EncodeToMemory (mkBlock "CERTIFICATE" certByt)) ;;
    r <- ask (X509KeyPair certPem keyPem) ;;
    match r with
    | Os.Err _ => Ret tt
    | Os.Ok keypair =>
        let tlsConfig := mkConfig VersionTLS12 VersionTLS12 [keypair] in
        listener <- must (Listen "tcp" Addr tlsConfig) ;;
        err <- ask (Serve listener) ;;
        match err with
        | Some e => Panic e
        | None => Ret tt
        end
    end
  else
    err <- ask (ListenAndServe Addr) ;;
    match err with
    | Some e => Panic e
    | None => Ret tt
    end.

(** One call and its answer. *)
Inductive Obs : Type :=
| obs (X : Type) (ev : Event X) (answer : X).
Arguments obs {X} ev answer.

(** The outside: the answer to the [n]-th call of a run. *)
Definition World : Type := forall X : Type, nat -> Event X -> X.

Inductive ending (A : Type) : Type :=
| Finished (a : A)
| Aborted (e : Os.error).
Arguments Finished {A} a.
Arguments Aborted {A} e.

(** The calls a program makes in a world, counted from [n], and how it
    ends. *)
Fixpoint run {A : Type} (w : World) (n : nat) (p : Prog A)
  : list Obs * ending A :=
  match p with
  | Ret a => ([], Finished a)
  | Panic e => ([], Aborted e)
  | Vis ev k =>
      let x := w _ n ev in
      let '(tr, out) := run w (S n) (k x) in
      (obs ev x :: tr, out)
  end.

Definition error_of {A : Type} (r : Os.result A) : option Os.error :=
  match r with
  | Os.Err e => Some e
  | Os.Ok _ => None
  end.

(** The error a step of the certificate bootstrap answered with: key
    generation, the serial number, signing, parsing, marshalling the key,
    loading the key pair, creating the listener. *)
Definition bootstrap_error (o : Obs) : option Os.error :=
  match o with
  | obs ev x =>
      match ev in Event X return X -> option Os.error with
      | GenerateKey _ => error_of
      | RandInt _ => error_of
      | CreateCertificate _ _ _ _ => error_of
      | ParseCertificate _ => error_of
      | MarshalECPrivateKey _ => error_of
      | X509KeyPair _ _ => error_of
      | Listen _ _ _ => error_of
      | _ => fun _ => None
      end x
  end.

Definition bootstrap_failure (o : Obs) : bool :=
  match bootstrap_error o with
  | Some _ => true
  | None => false
  end.

(** The step is [tls.X509KeyPair]. *)
Definition keypair_loading (o : Obs) : bool :=
  match o with
  | obs (X509KeyPair _ _) _ => true
  | _ => false
  end.

(** The arguments of a call of [x509.CreateCertificate]. *)
Definition created (o : Obs)
  : option (Certificate * Certificate * PublicKey * option PrivateKey) :=
  match o with
  | obs (CreateCertificate template parent pub priv) _ =>
      Some (template, parent, pub, priv)
  | _ => None
  end.

(** The contract of [rand.Int]: a value in [[0, max)]. *)
Definition rand_in_range (w : World) : Prop :=
  forall n max r, w _ n (RandInt max) = Os.Ok r -> (0 <= r < max)%Z.

(** The server started to accept connections. *)
Definition serving (o : Obs) : bool :=
  match o with
  | obs (Serve _) _ => true
  | obs (ListenAndServe _) _ => true
  | _ => false
  end.

End Boot.

(* ================================================================== *)
(** ** The other methods of [Items] and the [main] of the plain server *)

(** [Items.Len]. *)
Definition Len (items : list Item) : nat := List.length items.

(** [Items.Add]: [append(s.items, item)]. *)
Definition Add (items : list Item) (item : Item) : list Item :=
  items ++ [item].

(** [s.items[i] = x], where the index is in range. *)
Fixpoint store (items : list Item) (i : nat) (x : Item) : list Item :=
  match items, i with
  | [], _ => []
  | _ :: rest, O => x :: rest
  | y :: rest, S k => y :: store rest k x
  end.

(** [Items.Swap]: both elements are read, then both are written; an
    index past the end of the slice panics. *)
Definition Swap (items : list Item) (i j : nat) : outcome (list Item) :=
  match nth_error items i, nth_error items j with
  | Some a, Some b => Returned (store (store items i b) j a)
  | _, _ => Panicked
  end.

Module Plain.

Import Boot.

(** [main] of [main.go], from [filepath.Abs] on, given the parsed flags:
    [router.Run] listens on the address and serves. *)
Definition main (path host : string) (port : Z) : Prog unit :=
  path <- must (Abs path) ;;
  _ <- ask (Printf ("Listening and serving " ++ path ++ " on "
                    ++ address host port ++ GoStrings.newline)) ;;
  err <- ask (ListenAndServe (address host port)) ;;
  match err with
  | Some e => Panic e
  | None => Ret tt
  end.

End Plain.

(* ================================================================== *)
(** ** Predicates used by the statements *)

(** The item the loop adds for the child [fi]: built from the child's own
    name and time, and from the information [info] the loop holds after
    the symbolic-link block. *)
Definition rendered_from (fs : Os.FileSystem) (path : string)
  (fi : Os.FileInfo) (it : Item) : Prop :=
  exists info,
    it = entry (Os.Name fi) (Time.Format (Os.ModTime fi)) info
    /\ (if Os.is_symlink fi
        then exists linkPath,
            Os.Readlink fs (Filepath.Join path (Os.Name fi)) = Os.Ok linkPath
            /\ Os.Lstat fs linkPath = Os.Ok info
        else info = fi).


(** A slice in the order of the listing: no item stands before one that
    the order puts before it. *)
Definition in_order (l : list Item) : Prop :=
  StronglySorted (fun a b => spec_before b a = false) l.

(** What the order looks at. *)
Definition key (it : Item) : bool * string := (IsDir it, Name it).

Definition all_named (l : list Item) : Prop :=
  Forall (fun it => Name it <> EmptyString) l.

(** The context after the redirect test of [HandleDirList]. *)
Definition redirected (c : Context) : Context :=
  if negb (GoStrings.HasSuffix_slash (URL_Path c))
  then call c (Redirect 301 (URL_Path c ++ "/"))
  else c.

(** The context after the cache test of [Handle]. *)
Definition cached (h : StaticHandler) (c : Context) : Context :=
  if negb (Cache h) then
    call (call (call c
      (HeaderAdd "Cache-Control" "no-cache, no-store, must-revalidate"))
      (HeaderAdd "Pragma" "no-cache"))
      (HeaderAdd "Expires" "0")
  else c.

(** The context after the fall-through to the file server. *)
Definition served (h : StaticHandler) (c : Context) : Context :=
  call (if negb (String.eqb (ContentType h) EmptyString)
        then call c (HeaderAdd "Content-Type" (ContentType h))
        else c)
       ServeHTTP.

Definition is_Data (k : Call) : bool :=
  match k with
  | Data _ _ _ => true
  | _ => false
  end.

Definition is_ServeHTTP (k : Call) : bool :=
  match k with
  | ServeHTTP => true
  | _ => false
  end.

(** The page written for a sorted slice of items. *)
Definition page (c : Context) (sorted : list Item) : Call :=
  Data 200 "text/html"
    (body (pathFrm c) (pathFrm c)
       (String.concat GoStrings.newline (map Formatted sorted))).

(** Answer the next call of the world [w] that the goal is waiting for:
    both cases of a call that can fail, any value otherwise. *)
Ltac step_world w :=
  match goal with
  | |- context [w ?X ?n ?ev] =>
      lazymatch X with
      | Os.result _ => destruct (w X n ev) eqn:?
      | option _ => destruct (w X n ev) eqn:?
      | unit => destruct (w X n ev)
      | _ => generalize (w X n ev); intro
      end
  end.

Ltac run_world w := repeat (cbn; step_world w); cbn.


(* ================================================================== *)
(** ** A small file system for worked examples *)

Module Demo.

Fixpoint lookup {A : Type} (key : string) (table : list (string * A))
  : option A :=
  match table with
  | [] => None
  | (k, v) :: rest => if String.eqb key k then Some v else lookup key rest
  end.

(** A file system given by tables; a path in no table does not exist. *)
Definition from_tables
  (stat lstat : list (string * Os.result Os.FileInfo))
  (readlink : list (string * Os.result string))
  (readdir : list (string * Os.result (list Os.FileInfo)))
  : Os.FileSystem :=
  let find {A : Type} (t : list (string * Os.result A)) (p : string) :=
    match lookup p t with
    | Some r => r
    | None => Os.Err Os.ErrNotExist
    end in
  Os.mkFileSystem (find stat) (find lstat) (find readlink) (find readdir).

Definition perm_file : Z := 420.
Definition mode_dir : Z := Z.lor Os.ModeDir 493.
Definition mode_link : Z := Z.lor Os.ModeSymlink 511.

(** 13-Sep-2020 12:26 and 14-Nov-2023 22:13, in nanoseconds. *)
Definition t2020 : Time.Time := (1600000000 * Time.Second)%Z.
Definition t2023 : Time.Time := (1700000000 * Time.Second)%Z.

Definition file (name : string) (size : Z) (t : Time.Time) : Os.FileInfo :=
  Os.mkFileInfo name size perm_file t.
Definition dir (name : string) (t : Time.Time) : Os.FileInfo :=
  Os.mkFileInfo name 4096 mode_dir t.
Definition link (name : string) (t : Time.Time) : Os.FileInfo :=
  Os.mkFileInfo name 16 mode_link t.

Definition long_name : string :=
  "a-file-name-that-runs-past-the-fifty-byte-mark-01.txt".

(** A link and the file it names, changed at different times. *)
Definition lnk : Os.FileInfo := link "lnk" t2020.
Definition target : Os.FileInfo := file "target.txt" 10 t2023.

(** [/srv/www] holds a file, a hidden file and a directory;
    [/srv/www/sub] holds a file with a long name;
    [/srv/www/links] holds a link to a file kept elsewhere, changed at
    another time than the link, and a link whose target is gone;
    [/srv/www/chain] holds a link to a link to a directory;
    [/srv/www/docs] holds a file and an [index.html];
    [/srv/www/site] holds an [index.html] after a link whose target
    cannot be examined. *)
Definition fs : Os.FileSystem :=
  from_tables
    [ ("/srv/www", Os.Ok (dir "www" t2020));
      ("/srv/www/sub", Os.Ok (dir "sub" t2020));
      ("/srv/www/links", Os.Ok (dir "links" t2020));
      ("/srv/www/site", Os.Ok (dir "site" t2020));
      ("/srv/www/chain", Os.Ok (dir "chain" t2020));
      ("/srv/www/docs", Os.Ok (dir "docs" t2020));
      ("/srv/www/b.txt", Os.Ok (file "b.txt" 10 t2020));
      ("/data/target.txt", Os.Ok target);
      ("/data/hop2", Os.Ok (dir "dir" t2023)) ]
    [ ("/data/target.txt", Os.Ok target);
      ("/data/hop2", Os.Ok (link "hop2" t2023));
      ("/vault/assets", Os.Err Os.ErrPermission) ]
    [ ("/srv/www/links/lnk", Os.Ok "/data/target.txt");
      ("/srv/www/links/gone", Os.Ok "/data/missing");
      ("/srv/www/chain/hop", Os.Ok "/data/hop2");
      ("/data/hop2", Os.Ok "/data/dir");
      ("/srv/www/site/assets", Os.Ok "/vault/assets") ]
    [ ("/srv/www",
       Os.Ok [file ".hidden" 3 t2020; file "b.txt" 10 t2020; dir "sub" t2020]);
      ("/srv/www/sub", Os.Ok [file long_name 7 t2020]);
      ("/srv/www/links", Os.Ok [link "gone" t2020; lnk]);
      ("/srv/www/chain", Os.Ok [link "hop" t2020]);
      ("/srv/www/docs",
       Os.Ok [file "a.txt" 5 t2020; file "index.html" 120 t2020]);
      ("/srv/www/site",
       Os.Ok [link "assets" t2020; file "index.html" 120 t2020]) ].

(** The item listed for the file of [/srv/www/sub]. *)
Definition long_item : Item :=
  entry long_name (Time.Format t2020) (file long_name 7 t2020).

Definition handler : StaticHandler :=
  mkStaticHandler "/srv/www" false EmptyString.

Definition request (path : string) : Context := mkContext path path [].

End Demo.

Module DemoItems.

(** The items of [/srv/www] in the order the directory is read. *)
Definition root_items : list Item :=
  [ entry ".hidden" (Time.Format Demo.t2020) (Demo.file ".hidden" 3 Demo.t2020);
    entry "b.txt" (Time.Format Demo.t2020) (Demo.file "b.txt" 10 Demo.t2020);
    entry "sub" (Time.Format Demo.t2020) (Demo.dir "sub" Demo.t2020) ].

End DemoItems.

Module DemoWorld.

Import X509 Boot.

Definition answer {A : Type} (fail : bool) (a : A) : Os.result A :=
  if fail then Os.Err (Os.ErrOther "refused") else Os.Ok a.

(** A world in which every call succeeds, except the call number [bad]
    when there is one: keys are numbered by the call that made them, the
    serial number is the middle of the range, the clock advances by one
    nanosecond a call. *)
Definition world (bad : option nat) : World :=
  fun X n ev =>
    let fail := match bad with
                | Some k => Nat.eqb k n
                | None => false
                end in
    match ev in Event X return X with
    | Abs path => answer false path
    | Printf _ => tt
    | GenerateKey _ => answer fail (mkPrivateKey (Z.of_nat n))
    | RandInt max => answer fail (max / 2)%Z
    | Now => (Demo.t2023 + Z.of_nat n)%Z
    | CreateCertificate template _ _ _ =>
        answer fail [SerialNumber template]
    | ParseCertificate der =>
        answer fail
          (mkCertificate (hd 0%Z der) ["Pacur HTTP Server"] 0%Z 0%Z 5%Z
             [ExtKeyUsageServerAuth] true ECDSAWithSHA256)
    | MarshalECPrivateKey k => answer fail [secret k]
    | EncodeToMemory b => Bytes b
    | X509KeyPair certPEM keyPEM => answer fail (mkKeyPair certPEM keyPEM)
    | Listen _ _ _ => answer fail (mkListener 3)
    | Serve _ => Some (Os.ErrOther "closed")
    | ListenAndServe _ => Some (Os.ErrOther "closed")
    end.

End DemoWorld.

(** ** The calls of a response *)

(** The headers [Handle] adds when the cache is off. *)
Definition cache_headers (h : StaticHandler) : list Call :=
  if Cache h then []
  else [HeaderAdd "Cache-Control" "no-cache, no-store, must-revalidate";
        HeaderAdd "Pragma" "no-cache";
        HeaderAdd "Expires" "0"].

(** The header [Handle] adds before the file server when a content type
    is forced. *)
Definition forced_type (h : StaticHandler) : list Call :=
  if String.eqb (ContentType h) EmptyString then []
  else [HeaderAdd "Content-Type" (ContentType h)].

(** The redirect of a request: for a directory asked for without the
    final slash. *)
Definition redirect_of (fs : Os.FileSystem) (h : StaticHandler)
  (c : Context) : list Call :=
  match IsDirectory fs (resolve h c) with
  | (true, None) =>
      if GoStrings.HasSuffix_slash (URL_Path c) then []
      else [Redirect 301 (URL_Path c ++ "/")]
  | _ => []
  end.

(** How a response ends: an error, the file server, or a page. *)
Inductive response_end (h : StaticHandler) : list Call -> Prop :=
| end_error (e : Os.error) : response_end h [AbortWithError 500 e]
| end_file : response_end h (forced_type h ++ [ServeHTTP])
| end_page (data : string) : response_end h [Data 200 "text/html" data].

Definition is_cache_header (k : Call) : bool :=
  match k with
  | HeaderAdd key _ =>
      String.eqb key "Cache-Control" || String.eqb key "Pragma"
      || String.eqb key "Expires"
  | _ => false
  end.

Definition is_content_type (k : Call) : bool :=
  match k with
  | HeaderAdd key _ => String.eqb key "Content-Type"
  | _ => false
  end.

Definition is_Redirect (k : Call) : bool :=
  match k with
  | Redirect _ _ => true
  | _ => false
  end.

(** A call that writes the status of the response. *)
Definition is_final (k : Call) : bool :=
  match k with
  | Data _ _ _ | AbortWithError _ _ | ServeHTTP => true
  | _ => false
  end.

(** A link whose target is gone: the loop passes over it. *)
Definition dangling (fs : Os.FileSystem) (path : string)
  (fi : Os.FileInfo) : Prop :=
  Os.Name fi <> "index.html"
  /\ Os.is_symlink fi = true
  /\ exists linkPath e,
       Os.Readlink fs (Filepath.Join path (Os.Name fi)) = Os.Ok linkPath
       /\ Os.Lstat fs linkPath = Os.Err e
       /\ Os.IsNotExist e = true.

(** Every byte is below 128. *)
Fixpoint is_ascii (s : string) : bool :=
  match s with
  | EmptyString => true
  | String c rest => (Fmt.byte c <? 128)%N && is_ascii rest
  end.

(** Membership in a list written out: one case an element. *)
Ltac member_of H :=
  repeat (destruct H as [H|H];
          [try discriminate H; inversion H; subst; auto|]);
  try contradiction.

(** ** A second file system for worked examples *)

Module Demo2.

(** [/srv/www/locked] is a directory that cannot be read;
    [/srv/www/stale] holds two links whose targets are gone;
    [/srv/www/plain] holds a directory and two files. *)
Definition fs : Os.FileSystem :=
  Demo.from_tables
    [ ("/srv/www", Os.Ok (Demo.dir "www" Demo.t2020));
      ("/srv/www/locked", Os.Ok (Demo.dir "locked" Demo.t2020));
      ("/srv/www/stale", Os.Ok (Demo.dir "stale" Demo.t2020));
      ("/srv/www/plain", Os.Ok (Demo.dir "plain" Demo.t2020)) ]
    []
    [ ("/srv/www/stale/one", Os.Ok "/gone/one");
      ("/srv/www/stale/two", Os.Ok "two.txt") ]
    [ ("/srv/www/locked", Os.Err Os.ErrPermission);
      ("/srv/www/stale",
       Os.Ok [Demo.link "one" Demo.t2020; Demo.link "two" Demo.t2020]);
      ("/srv/www/plain",
       Os.Ok [Demo.file "a.txt" 1 Demo.t2020; Demo.dir "b" Demo.t2023;
              Demo.file "c.txt" 3 Demo.t2020]) ].

End Demo2.

(** ** Reading the calls of the bootstrap *)

Module Calls.

Import X509 Boot.

(** A call of the certificate bootstrap or of the TLS listener. *)
Definition is_tls_call (o : Obs) : bool :=
  match o with
  | obs (Abs _) _ | obs (Printf _) _ | obs (ListenAndServe _) _ => false
  | _ => true
  end.

(** The arguments of a call of [tls.Listen]. *)
Definition listened (o : Obs) : option (string * string * tls_Config) :=
  match o with
  | obs (Listen network addr config) _ => Some (network, addr, config)
  | _ => None
  end.

(** The listener handed to [server.Serve]. *)
Definition served_on (o : Obs) : option Listener :=
  match o with
  | obs (Serve l) _ => Some l
  | _ => None
  end.

(** The calls of [x509.CreateCertificate] of a run, in order. *)
Definition signings (tr : list Obs)
  : list (Certificate * Certificate * PublicKey * option PrivateKey) :=
  flat_map (fun o => match created o with
                     | Some t => [t]
                     | None => []
                     end) tr.

End Calls.

(* ================================================================== *)
(** * Properties *)

(** ** Byte strings *)

Lemma append_assoc (a b c : string) : (a ++ b) ++ c = a ++ (b ++ c).
Proof. induction a as [|x a IH]; simpl; [reflexivity | now rewrite IH]. Qed.

(** Slicing [s[:n]] within bounds splits [s]. *)
Lemma substring_head (n : nat) (s : string) :
  n <= String.length s ->
  exists tail, s = String.substring 0 n s ++ tail
               /\ String.length (String.substring 0 n s) = n.
Proof.
  revert s; induction n as [|n IH]; intros s Hn.
  - exists s. destruct s; simpl; auto.
  - destruct s as [|c s]; simpl in Hn; [lia|].
    destruct (IH s) as [tail [Hs Hl]]; [lia|].
    exists tail; simpl; split; [now rewrite <- Hs | now rewrite Hl].
Qed.

(** ** The loop of [HandleDirList] *)

Lemma scan_listed (fs : Os.FileSystem) (path : string)
  (itemsAll : list Os.FileInfo) :
  forall acc items,
    scan fs path itemsAll acc = Listed items ->
    exists added,
      items = (acc ++ added)%list
      /\ Forall (fun it => exists fi, In fi itemsAll
                                     /\ rendered_from fs path fi it) added.
Proof.
  induction itemsAll as [|fi rest IH]; intros acc items H; simpl in H.
  - inversion H; subst. exists []. now rewrite app_nil_r.
  - destruct (String.eqb (Os.Name fi) "index.html"); [discriminate|].
    assert (Hstep : forall info,
      (if Os.is_symlink fi
       then exists linkPath,
           Os.Readlink fs (Filepath.Join path (Os.Name fi)) = Os.Ok linkPath
           /\ Os.Lstat fs linkPath = Os.Ok info
       else info = fi) ->
      scan fs path rest
        (acc ++ [entry (Os.Name fi) (Time.Format (Os.ModTime fi)) info])
      = Listed items ->
      exists added,
        items = (acc ++ added)%list
        /\ Forall (fun it => exists fi0, In fi0 (fi :: rest)
                                        /\ rendered_from fs path fi0 it) added).
    { intros info Hinfo Hs. apply IH in Hs. destruct Hs as [added [-> Hall]].
      exists (entry (Os.Name fi) (Time.Format (Os.ModTime fi)) info :: added).
      split; [now rewrite <- app_assoc|].
      constructor.
      - exists fi; split; [now left|]. now exists info.
      - eapply Forall_impl; [|exact Hall].
        intros it [fi0 [Hin Hr]]. exists fi0; split; [now right | exact Hr]. }
    destruct (Os.is_symlink fi) eqn:Hsym.
    + destruct (Os.Readlink fs _) as [linkPath|e] eqn:Hrl; [|discriminate].
      destruct (Os.Lstat fs linkPath) as [itm|e] eqn:Hls.
      * apply (Hstep itm); [|exact H]. now exists linkPath.
      * destruct (Os.IsNotExist e); [|discriminate].
        apply IH in H. destruct H as [added [-> Hall]].
        exists added; split; [reflexivity|].
        eapply Forall_impl; [|exact Hall].
        intros it [fi0 [Hin Hr]]. exists fi0; split; [now right | exact Hr].
    + apply (Hstep fi); [reflexivity | exact H].
Qed.

Lemma scan_listed_in (fs : Os.FileSystem) (path : string)
  (itemsAll : list Os.FileInfo) (items : list Item) (it : Item) :
  scan fs path itemsAll [] = Listed items -> In it items ->
  exists fi, In fi itemsAll /\ rendered_from fs path fi it.
Proof.
  intros H Hin. apply scan_listed in H. destruct H as [added [-> Hall]].
  simpl in Hin. rewrite Forall_forall in Hall. now apply Hall.
Qed.

(** ** The rendered line: link text and link target *)



(** The item added for a child: its name is the child's name, followed by
    a slash when the information held is a directory's, and its line is
    the anchor on that name, the shown name, the time and the size. *)
Lemma entry_shape (name modTime : string) (info : Os.FileInfo) :
  let it := entry name modTime info in
  Name it = (if Os.IsDir info then name ++ "/" else name)
  /\ IsDir it = Os.IsDir info
  /\ Formatted it
     = anchor (Name it)
       ++ line (formattedName (Name it)) modTime
            (if Os.IsDir info then "-" else Fmt.decimal (Os.Size info)).
Proof. unfold entry; simpl. auto. Qed.



Example formattedName_53_bytes :
  formattedName Demo.long_name
  = "a-file-name-that-runs-past-the-fifty-byte-mark-..>".
Proof. reflexivity. Qed.

Example formattedName_50_bytes :
  formattedName "a-file-name-that-runs-to-the-fifty-byte-mark-0.txt"
  = "a-file-name-that-runs-to-the-fifty-byte-mark-0.txt".
Proof. reflexivity. Qed.

(** C10. For every entry of a listing, the line opens with the anchor
    whose [href] is the whole name of the entry (the child's name, with a
    slash after it for a directory), whatever its length; only the link
    text that follows is cut. *)
Theorem C10_href_full_name (fs : Os.FileSystem) (path : string)
  (itemsAll : list Os.FileInfo) (items : list Item) (it : Item) :
  scan fs path itemsAll [] = Listed items ->
  In it items ->
  exists fi rest,
    In fi itemsAll
    /\ Name it = (if IsDir it then Os.Name fi ++ "/" else Os.Name fi)
    /\ Formatted it
       = "<a href=" ++ GoStrings.dquote ++ Name it ++ GoStrings.dquote ++ ">"
         ++ rest.
Proof.
  intros Hscan Hin.
  destruct (scan_listed_in _ _ _ _ _ Hscan Hin) as [fi [Hfi [info [-> _]]]].
  destruct (entry_shape (Os.Name fi) (Time.Format (Os.ModTime fi)) info)
    as [Hname [Hdir Hfmt]].
  exists fi. eexists. split; [exact Hfi|]. split.
  - rewrite Hdir. exact Hname.
  - rewrite Hfmt. unfold anchor. now rewrite !append_assoc.
Qed.

Lemma C10_href_full_name_witness :
  exists fi rest,
    In fi [Demo.file Demo.long_name 7 Demo.t2020]
    /\ Name Demo.long_item
       = (if IsDir Demo.long_item then Os.Name fi ++ "/" else Os.Name fi)
    /\ Formatted Demo.long_item
       = "<a href=" ++ GoStrings.dquote ++ Name Demo.long_item
         ++ GoStrings.dquote ++ ">" ++ rest.
Proof.
  apply (C10_href_full_name Demo.fs "/srv/www/sub"
           [Demo.file Demo.long_name 7 Demo.t2020] [Demo.long_item]).
  - reflexivity.
  - simpl. left. reflexivity.
Defined.

Example href_of_long_name :
  Formatted Demo.long_item
  = "<a href=" ++ GoStrings.dquote ++ Demo.long_name ++ GoStrings.dquote
    ++ ">a-file-name-that-runs-past-the-fifty-byte-mark-..></a> "
    ++ "13-Sep-2020 12:26                   7".
Proof. reflexivity. Qed.

(** ** The bytewise order on strings *)

Lemma ascii_compare_refl (c : ascii) : Ascii.compare c c = Eq.
Proof. unfold Ascii.compare. apply N.compare_refl. Qed.

Lemma ascii_compare_lt_trans (a b c : ascii) :
  Ascii.compare a b = Lt -> Ascii.compare b c = Lt -> Ascii.compare a c = Lt.
Proof.
  unfold Ascii.compare. rewrite !N.compare_lt_iff. apply N.lt_trans.
Qed.

Lemma string_compare_refl (s : string) : String.compare s s = Eq.
Proof.
  induction s as [|c s IH]; simpl; [reflexivity|].
  now rewrite ascii_compare_refl.
Qed.

Lemma string_compare_lt_trans (a b c : string) :
  String.compare a b = Lt -> String.compare b c = Lt ->
  String.compare a c = Lt.
Proof.
  revert b c; induction a as [|x a IH]; intros [|y b] [|z c]; simpl;
    try discriminate; try reflexivity.
  destruct (Ascii.compare x y) eqn:Hxy; try discriminate;
    destruct (Ascii.compare y z) eqn:Hyz; try discriminate; intros Hab Hbc.
  - apply Ascii.compare_eq_iff in Hxy, Hyz. subst.
    rewrite ascii_compare_refl. now apply (IH b).
  - apply Ascii.compare_eq_iff in Hxy. subst. now rewrite Hyz.
  - apply Ascii.compare_eq_iff in Hyz. subst. now rewrite Hxy.
  - now rewrite (ascii_compare_lt_trans x y z).
Qed.

Lemma ltb_irrefl (s : string) : String.ltb s s = false.
Proof. unfold String.ltb. now rewrite string_compare_refl. Qed.

Lemma ltb_trans (a b c : string) :
  String.ltb a b = true -> String.ltb b c = true -> String.ltb a c = true.
Proof.
  unfold String.ltb. intros Hab Hbc.
  destruct (String.compare a b) eqn:H1; try discriminate.
  destruct (String.compare b c) eqn:H2; try discriminate.
  now rewrite (string_compare_lt_trans a b c).
Qed.

Lemma ltb_asym (a b : string) :
  String.ltb a b = true -> String.ltb b a = false.
Proof.
  unfold String.ltb. rewrite (String.compare_antisym b a).
  destruct (String.compare a b); simpl; congruence.
Qed.

Lemma ltb_total (a b : string) :
  String.ltb a b = true \/ String.ltb b a = true \/ a = b.
Proof.
  unfold String.ltb. rewrite (String.compare_antisym b a).
  destruct (String.compare a b) eqn:H; simpl; auto.
  right; right. now apply String.compare_eq_iff.
Qed.

(** ** The order of the listing *)

(** On items with a name, [Less] never panics and is the order of the
    specification. *)
Lemma Less_spec (a b : Item) :
  Name a <> EmptyString -> Name b <> EmptyString ->
  Less a b = Returned (spec_before a b).
Proof.
  intros Ha Hb. unfold Less, spec_before, hidden, starts_with_dot.
  destruct (Name a) as [|ca ra]; [contradiction|].
  destruct (Name b) as [|cb rb]; [contradiction|].
  destruct (IsDir a), (IsDir b), (Ascii.eqb ca "."), (Ascii.eqb cb ".");
    reflexivity.
Qed.

Lemma spec_before_irrefl (a : Item) : spec_before a a = false.
Proof.
  unfold spec_before.
  destruct (IsDir a), (starts_with_dot (Name a)); apply ltb_irrefl.
Qed.

Lemma spec_before_trans (a b c : Item) :
  spec_before a b = true -> spec_before b c = true -> spec_before a c = true.
Proof.
  unfold spec_before.
  destruct (IsDir a), (IsDir b), (IsDir c),
    (starts_with_dot (Name a)), (starts_with_dot (Name b)),
    (starts_with_dot (Name c));
    try discriminate; try reflexivity; apply ltb_trans.
Qed.

Lemma spec_before_asym (a b : Item) :
  spec_before a b = true -> spec_before b a = false.
Proof.
  unfold spec_before.
  destruct (IsDir a), (IsDir b),
    (starts_with_dot (Name a)), (starts_with_dot (Name b));
    try discriminate; try reflexivity; apply ltb_asym.
Qed.

Lemma spec_before_total (a b : Item) :
  spec_before a b = true \/ spec_before b a = true \/ same_key a b.
Proof.
  unfold spec_before, same_key.
  destruct (IsDir a), (IsDir b),
    (starts_with_dot (Name a)), (starts_with_dot (Name b)); auto;
    destruct (ltb_total (Name a) (Name b)) as [H|[H|H]]; auto.
Qed.

(** Not before: the negation of the strict order is transitive too. *)
Lemma not_before_trans (a b c : Item) :
  spec_before b a = false -> spec_before c b = false ->
  spec_before c a = false.
Proof.
  intros Hba Hcb.
  destruct (spec_before c a) eqn:Hca; [|reflexivity].
  destruct (spec_before_total a b) as [Hab|[Hab|[Hd Hn]]].
  - pose proof (spec_before_trans c a b Hca Hab). congruence.
  - congruence.
  - assert (spec_before c b = spec_before c a) as E.
    { unfold spec_before. now rewrite Hd, Hn. }
    congruence.
Qed.

(** ** [Items.Sort] *)

Lemma insert_sorted (x : Item) (l : list Item) :
  Name x <> EmptyString -> all_named l ->
  exists l',
    insert x l = Returned l'
    /\ Permutation (x :: l) l'
    /\ (in_order l -> in_order l').
Proof.
  intros Hx Hl. induction Hl as [|y rest Hy Hrest IH]; simpl.
  - exists [x]. split; [reflexivity|]. split; [apply Permutation_refl|].
    intros _. repeat constructor.
  - rewrite (Less_spec x y Hx Hy).
    destruct (spec_before x y) eqn:Hxy.
    + exists (x :: y :: rest). split; [reflexivity|].
      split; [apply Permutation_refl|].
      intros Hs. constructor; [exact Hs|].
      pose proof (spec_before_asym _ _ Hxy) as Hyx.
      constructor; [exact Hyx|].
      inversion Hs as [|? ? _ Hall]; subst.
      eapply Forall_impl; [|exact Hall].
      intros b Hb. simpl in Hb. now apply (not_before_trans x y b).
    + destruct IH as [rest' [-> [Hperm Hsorted]]].
      exists (y :: rest'). split; [reflexivity|]. split.
      * eapply Permutation_trans; [apply perm_swap|].
        now apply perm_skip.
      * intros Hs. inversion Hs as [|? ? Hs' Hall]; subst.
        constructor; [now apply Hsorted|].
        rewrite Forall_forall in *. intros b Hb.
        apply (Permutation_in _ (Permutation_sym Hperm)) in Hb.
        destruct Hb as [<-|Hb]; [exact Hxy | now apply Hall].
Qed.

Lemma Sort_sorted (items : list Item) :
  all_named items ->
  exists sorted,
    Sort items = Returned sorted
    /\ Permutation items sorted
    /\ in_order sorted.
Proof.
  intros Hn. induction Hn as [|x rest Hx Hrest IH]; simpl.
  - exists []. repeat split; constructor.
  - destruct IH as [s [-> [Hperm Hs]]].
    assert (all_named s) as Hns.
    { unfold all_named in *. rewrite Forall_forall in *.
      intros b Hb. apply Hrest.
      now apply (Permutation_in _ (Permutation_sym Hperm)). }
    destruct (insert_sorted x s Hx Hns) as [l' [-> [Hp' Hs']]].
    exists l'. split; [reflexivity|]. split; [|now apply Hs'].
    eapply Permutation_trans; [|exact Hp']. now apply perm_skip.
Qed.

(** In a slice whose items differ in name or kind, the order leaves one
    arrangement only: whatever the sorting algorithm, the result is the
    same. *)
Lemma in_order_unique (l1 : list Item) :
  forall l2,
    NoDup (map key l1) -> Permutation l1 l2 ->
    in_order l1 -> in_order l2 -> l1 = l2.
Proof.
  induction l1 as [|h1 t1 IH]; intros l2 Hnd Hperm Hs1 Hs2.
  - now apply Permutation_nil in Hperm.
  - destruct l2 as [|h2 t2].
    { apply Permutation_sym, Permutation_nil in Hperm. discriminate. }
    inversion Hs1 as [|? ? Hs1' Hall1]; subst.
    inversion Hs2 as [|? ? Hs2' Hall2]; subst.
    inversion Hnd as [|? ? Hnotin Hnd']; subst.
    rewrite Forall_forall in Hall1, Hall2.
    assert (h1 = h2) as ->.
    { assert (In h1 (h2 :: t2)) as Hin1
        by (apply (Permutation_in _ Hperm); now left).
      assert (In h2 (h1 :: t1)) as Hin2
        by (apply (Permutation_in _ (Permutation_sym Hperm)); now left).
      destruct Hin1 as [E|Hin1]; [now symmetry|].
      destruct Hin2 as [E|Hin2]; [exact E|].
      exfalso. apply Hnotin.
      pose proof (Hall2 _ Hin1) as H12. pose proof (Hall1 _ Hin2) as H21.
      simpl in H12, H21.
      destruct (spec_before_total h1 h2) as [H|[H|[Hd Hn]]];
        try congruence.
      replace (key h1) with (key h2) by (unfold key; now rewrite Hd, Hn).
      now apply in_map. }
    f_equal. apply IH; auto.
    now apply Permutation_cons_inv in Hperm.
Qed.

(** Whenever the sort returns, it returns a rearrangement. *)
Lemma insert_perm (x : Item) (l : list Item) :
  forall l', insert x l = Returned l' -> Permutation (x :: l) l'.
Proof.
  induction l as [|y rest IH]; intros l' H; simpl in H.
  - inversion H. apply Permutation_refl.
  - destruct (Less x y) as [[|]|]; try discriminate.
    + inversion H. apply Permutation_refl.
    + destruct (insert x rest) as [rest'|]; [|discriminate].
      inversion H; subst.
      eapply Permutation_trans; [apply perm_swap|].
      apply perm_skip. now apply IH.
Qed.

Lemma Sort_perm (items : list Item) :
  forall sorted, Sort items = Returned sorted -> Permutation items sorted.
Proof.
  induction items as [|x rest IH]; intros sorted H; simpl in H.
  - inversion H. constructor.
  - destruct (Sort rest) as [s|]; [|discriminate].
    eapply Permutation_trans; [apply perm_skip, IH; reflexivity|].
    now apply insert_perm.
Qed.

Lemma in_order_strict (l : list Item) :
  NoDup (map key l) -> in_order l ->
  StronglySorted (fun a b => spec_before a b = true) l.
Proof.
  intros Hnd Hs. induction Hs as [|h t Hs IH Hall]; [constructor|].
  inversion Hnd as [|? ? Hnotin Hnd']; subst.
  constructor; [now apply IH|].
  rewrite Forall_forall in *. intros b Hb.
  destruct (spec_before_total h b) as [H|[H|[Hd Hn]]]; [exact H| |].
  - rewrite (Hall b Hb) in H. discriminate.
  - exfalso. apply Hnotin.
    replace (key h) with (key b) by (unfold key; now rewrite Hd, Hn).
    now apply in_map.
Qed.

(** C3. Sorting a slice of named items returns a rearrangement of it in
    the order of the listing: directories before files, then names that
    begin with a dot before the others, then the names compared byte by
    byte.  [Less] is that order, which is a strict total order on (kind,
    name); when no two items agree on both, every earlier item of the
    result is strictly before every later one and no other arrangement is
    in order.  A file [b.txt], a file [.hidden] and a directory [sub/]
    come out as [sub/], [.hidden], [b.txt]. *)
Theorem C3_listing_order (items : list Item) :
  all_named items ->
  exists sorted,
    Sort items = Returned sorted
    /\ Permutation items sorted
    /\ in_order sorted
    /\ (forall a b, In a items -> In b items ->
                    Less a b = Returned (spec_before a b))
    /\ (forall a, spec_before a a = false)
    /\ (forall a b c, spec_before a b = true -> spec_before b c = true ->
                      spec_before a c = true)
    /\ (forall a b, spec_before a b = true \/ spec_before b a = true
                    \/ same_key a b)
    /\ (NoDup (map key items) ->
        StronglySorted (fun a b => spec_before a b = true) sorted
        /\ forall other, Permutation items other -> in_order other ->
                         other = sorted)
    /\ (forall f1 f2 f3,
          Sort [mkItem "b.txt" false f1; mkItem ".hidden" false f2;
                mkItem "sub/" true f3]
          = Returned [mkItem "sub/" true f3; mkItem ".hidden" false f2;
                      mkItem "b.txt" false f1]).
Proof.
  intros Hn.
  destruct (Sort_sorted items Hn) as [sorted [Hsort [Hperm Hs]]].
  exists sorted. repeat split; auto.
  - intros a b Ha Hb. unfold all_named in Hn. rewrite Forall_forall in Hn.
    apply Less_spec; now apply Hn.
  - apply spec_before_irrefl.
  - apply spec_before_trans.
  - apply spec_before_total.
  - apply in_order_strict; [|exact Hs].
    eapply Permutation_NoDup; [|eassumption].
    now apply Permutation_map.
  - intros other Hp Ho. symmetry.
    apply in_order_unique; auto.
    + eapply Permutation_NoDup; [|eassumption].
      now apply Permutation_map.
    + eapply Permutation_trans; [apply Permutation_sym|]; eassumption.
Qed.

(** The directory [/srv/www] of the example. *)
Lemma C3_listing_order_witness :
  all_named DemoItems.root_items
  /\ exists sorted,
       Sort DemoItems.root_items = Returned sorted
       /\ map Name sorted = ["sub/"; ".hidden"; "b.txt"]
       /\ in_order sorted.
Proof.
  assert (all_named DemoItems.root_items) as Hn.
  { repeat constructor; discriminate. }
  split; [exact Hn|].
  destruct (C3_listing_order DemoItems.root_items Hn)
    as [sorted [Hsort [_ [Hs _]]]].
  exists sorted. split; [exact Hsort|]. split; [|exact Hs].
  vm_compute in Hsort. inversion Hsort. reflexivity.
Defined.

(** The same through the handler: the three lines of the page for [/]. *)
Example listing_of_root :
  match Os.ReadDir Demo.fs "/srv/www" with
  | Os.Ok itemsAll =>
      match scan Demo.fs "/srv/www" itemsAll [] with
      | Listed items =>
          match Sort items with
          | Returned sorted => map Name sorted
          | Panicked => []
          end
      | _ => []
      end
  | Os.Err _ => []
  end = ["sub/"; ".hidden"; "b.txt"].
Proof. reflexivity. Qed.

(** ** The loop, entry by entry *)

(** Scanning a directory is scanning a first part of it and, unless that
    ended the loop, going on with the rest. *)
Lemma scan_app (fs : Os.FileSystem) (path : string)
  (pre post : list Os.FileInfo) :
  forall acc,
    scan fs path (pre ++ post) acc
    = match scan fs path pre acc with
      | Listed items => scan fs path post items
      | ended => ended
      end.
Proof.
  induction pre as [|fi pre IH]; intros acc; simpl; [reflexivity|].
  destruct (String.eqb (Os.Name fi) "index.html"); [reflexivity|].
  destruct (Os.is_symlink fi); [|apply IH].
  destruct (Os.Readlink fs _) as [linkPath|e]; [|reflexivity].
  destruct (Os.Lstat fs linkPath) as [itm|e]; [apply IH|].
  destruct (Os.IsNotExist e); [apply IH | reflexivity].
Qed.

(** A directory with a child called [index.html] is never listed. *)
Lemma scan_index_not_listed (fs : Os.FileSystem) (path : string)
  (itemsAll : list Os.FileInfo) :
  (exists fi, In fi itemsAll /\ Os.Name fi = "index.html") ->
  forall acc items, scan fs path itemsAll acc <> Listed items.
Proof.
  intros [idx [Hin Hname]].
  induction itemsAll as [|fi rest IH]; [contradiction|].
  intros acc items. simpl.
  destruct (String.eqb_spec (Os.Name fi) "index.html") as [_|Hne];
    [discriminate|].
  destruct Hin as [->|Hin]; [contradiction|].
  destruct (Os.is_symlink fi); [|now apply IH].
  destruct (Os.Readlink fs _) as [linkPath|e]; [|discriminate].
  destruct (Os.Lstat fs linkPath) as [itm|e]; [now apply IH|].
  destruct (Os.IsNotExist e); [now apply IH | discriminate].
Qed.

(** Without a child called [index.html] the loop lists or fails. *)
Lemma scan_no_index (fs : Os.FileSystem) (path : string)
  (itemsAll : list Os.FileInfo) :
  Forall (fun fi => Os.Name fi <> "index.html") itemsAll ->
  forall acc, scan fs path itemsAll acc <> IndexFound.
Proof.
  intros Hall. induction Hall as [|fi rest Hfi Hrest IH]; intros acc; simpl;
    [discriminate|].
  destruct (String.eqb_spec (Os.Name fi) "index.html") as [E|_];
    [contradiction|].
  destruct (Os.is_symlink fi); [|apply IH].
  destruct (Os.Readlink fs _) as [linkPath|e]; [|discriminate].
  destruct (Os.Lstat fs linkPath) as [itm|e]; [apply IH|].
  destruct (Os.IsNotExist e); [apply IH | discriminate].
Qed.

(** The names of the items are the names of the children, so they are
    not empty when those are not. *)
Lemma scan_all_named (fs : Os.FileSystem) (path : string)
  (itemsAll : list Os.FileInfo) (items : list Item) :
  Forall (fun fi => Os.Name fi <> EmptyString) itemsAll ->
  scan fs path itemsAll [] = Listed items ->
  all_named items.
Proof.
  intros Hall Hscan. unfold all_named. rewrite Forall_forall in *.
  intros it Hin.
  destruct (scan_listed_in _ _ _ _ _ Hscan Hin) as [fi [Hfi [info [-> _]]]].
  specialize (Hall fi Hfi). unfold entry; simpl.
  destruct (Os.IsDir info); [|exact Hall].
  destruct (Os.Name fi); [contradiction | discriminate].
Qed.

(** [Items.Join] concatenates the lines as they stand in the items. *)
Lemma Items_Join_concat (items : list Item) (sep : string) :
  Items_Join items sep = String.concat sep (map Formatted items).
Proof.
  induction items as [|it rest IH]; [reflexivity|].
  destruct rest as [|it' rest]; [reflexivity|].
  change (Items_Join (it :: it' :: rest) sep)
    with (Formatted it ++ sep ++ Items_Join (it' :: rest) sep).
  now rewrite IH.
Qed.

(** What a successful [HandleDirList] did. *)
Lemma HandleDirList_ok (fs : Os.FileSystem) (h : StaticHandler)
  (path : string) (c c' : Context) (err : option Os.error) :
  HandleDirList fs h path c = Returned (c', true, err) ->
  exists itemsAll items sorted,
    Os.ReadDir fs path = Os.Ok itemsAll
    /\ scan fs path itemsAll [] = Listed items
    /\ Sort items = Returned sorted
    /\ err = None
    /\ c' = call (redirected c)
              (Data 200 "text/html"
                 (body (pathFrm (redirected c)) (pathFrm (redirected c))
                    (Items_Join sorted GoStrings.newline))).
Proof.
  unfold HandleDirList. fold (redirected c). intros H.
  destruct (Os.ReadDir fs path) as [itemsAll|e]; [|discriminate].
  destruct (scan fs path itemsAll []) as [items| |e] eqn:Hscan;
    try discriminate.
  destruct (Sort items) as [sorted|] eqn:Hsort; [|discriminate].
  inversion H; subst. now exists itemsAll, items, sorted.
Qed.

(** ** [Handle] around [HandleDirList] *)

Lemma pathFrm_redirected (c : Context) : pathFrm (redirected c) = pathFrm c.
Proof.
  unfold redirected.
  now destruct (negb (GoStrings.HasSuffix_slash (URL_Path c))).
Qed.

Lemma resolve_cached (h : StaticHandler) (c : Context) :
  resolve h (cached h c) = resolve h c.
Proof. unfold cached. now destruct (negb (Cache h)). Qed.

(** For a directory, [Handle] is [HandleDirList] followed by the error
    answer, the fall-through to the file server, or nothing more. *)
Lemma Handle_dir (fs : Os.FileSystem) (h : StaticHandler) (c : Context) :
  IsDirectory fs (resolve h c) = (true, None) ->
  Handle fs h c
  = match HandleDirList fs h (resolve h c) (cached h c) with
    | Panicked => Panicked
    | Returned (c', _, Some e) => Returned (call c' (AbortWithError 500 e))
    | Returned (c', ok, None) =>
        if ok then Returned c' else Returned (served h c')
    end.
Proof.
  intros Hdir. unfold Handle. fold (cached h c).
  rewrite resolve_cached, Hdir.
  destruct (HandleDirList fs h (resolve h c) (cached h c))
    as [[[c' ok] [e|]]|]; try reflexivity.
  unfold served. now destruct ok.
Qed.

(** [HandleDirList] in terms of the loop. *)
Lemma HandleDirList_scan (fs : Os.FileSystem) (h : StaticHandler)
  (path : string) (c : Context) (itemsAll : list Os.FileInfo) :
  Os.ReadDir fs path = Os.Ok itemsAll ->
  HandleDirList fs h path c
  = match scan fs path itemsAll [] with
    | IndexFound => Returned (redirected c, false, None)
    | Failed e => Returned (redirected c, false, Some e)
    | Listed items =>
        match Sort items with
        | Panicked => Panicked
        | Returned sorted =>
            Returned (call (redirected c) (page c sorted), true, None)
        end
    end.
Proof.
  intros Hrd. unfold HandleDirList. fold (redirected c). rewrite Hrd.
  destruct (scan fs path itemsAll []) as [items| |e]; try reflexivity.
  destruct (Sort items) as [sorted|]; [|reflexivity].
  unfold page. now rewrite pathFrm_redirected, Items_Join_concat.
Qed.

(** A link that resolves adds its item and the loop goes on. *)
Lemma scan_link_resolved (fs : Os.FileSystem) (path : string)
  (link target : Os.FileInfo) (linkPath : string)
  (rest : list Os.FileInfo) (acc : list Item) :
  Os.Name link <> "index.html" ->
  Os.is_symlink link = true ->
  Os.Readlink fs (Filepath.Join path (Os.Name link)) = Os.Ok linkPath ->
  Os.Lstat fs linkPath = Os.Ok target ->
  scan fs path (link :: rest) acc
  = scan fs path rest
      (acc ++ [entry (Os.Name link) (Time.Format (Os.ModTime link)) target]).
Proof.
  intros Hn Hs Hr Hl. simpl.
  destruct (String.eqb_spec (Os.Name link) "index.html"); [contradiction|].
  now rewrite Hs, Hr, Hl.
Qed.

(** A link whose target is gone adds nothing and the loop goes on. *)
Lemma scan_link_gone (fs : Os.FileSystem) (path : string)
  (link : Os.FileInfo) (linkPath : string) (e : Os.error)
  (rest : list Os.FileInfo) (acc : list Item) :
  Os.Name link <> "index.html" ->
  Os.is_symlink link = true ->
  Os.Readlink fs (Filepath.Join path (Os.Name link)) = Os.Ok linkPath ->
  Os.Lstat fs linkPath = Os.Err e ->
  Os.IsNotExist e = true ->
  scan fs path (link :: rest) acc = scan fs path rest acc.
Proof.
  intros Hn Hs Hr Hl He. simpl.
  destruct (String.eqb_spec (Os.Name link) "index.html"); [contradiction|].
  now rewrite Hs, Hr, Hl, He.
Qed.

(** A link that cannot be read or examined ends the loop. *)
Lemma scan_link_failed (fs : Os.FileSystem) (path : string)
  (link : Os.FileInfo) (e : Os.error)
  (rest : list Os.FileInfo) (acc : list Item) :
  Os.Name link <> "index.html" ->
  Os.is_symlink link = true ->
  Os.Readlink fs (Filepath.Join path (Os.Name link)) = Os.Err e
  \/ (exists linkPath,
        Os.Readlink fs (Filepath.Join path (Os.Name link)) = Os.Ok linkPath
        /\ Os.Lstat fs linkPath = Os.Err e
        /\ Os.IsNotExist e = false) ->
  scan fs path (link :: rest) acc = Failed e.
Proof.
  intros Hn Hs H. simpl.
  destruct (String.eqb_spec (Os.Name link) "index.html"); [contradiction|].
  rewrite Hs. destruct H as [Hr|[linkPath [Hr [Hl He]]]].
  - now rewrite Hr.
  - now rewrite Hr, Hl, He.
Qed.

(** ** Symbolic links in a listing *)

Lemma page_cached (h : StaticHandler) (c : Context) (sorted : list Item) :
  page (cached h c) sorted = page c sorted.
Proof. unfold page, cached. now destruct (negb (Cache h)). Qed.

(** C1, as the code has it.  A child that is a symbolic link is listed
    under its own name and with its own modification time; the size and
    the directory mark are those [Lstat] reports for the path [Readlink]
    returns for it (the text of the link, not followed further).  If
    [Lstat] reports that this path does not exist, the loop goes on as if
    the child were not in the directory and the request does not fail for
    it.  Any other [Readlink] or [Lstat] error on a child the loop reaches
    (no [index.html] before it) ends the listing with an error, which
    [Handle] answers with status 500 and no page. *)
Theorem C1_symlink_entries (fs : Os.FileSystem) (h : StaticHandler)
  (c : Context) (pre post : list Os.FileInfo) (link : Os.FileInfo) :
  Os.ReadDir fs (resolve h c) = Os.Ok (pre ++ link :: post)%list ->
  Os.is_symlink link = true ->
  Os.Name link <> "index.html" ->
  (forall linkPath target c' err,
      Os.Readlink fs (Filepath.Join (resolve h c) (Os.Name link))
      = Os.Ok linkPath ->
      Os.Lstat fs linkPath = Os.Ok target ->
      HandleDirList fs h (resolve h c) (cached h c)
      = Returned (c', true, err) ->
      exists sorted name,
        c' = call (redirected (cached h c)) (page c sorted)
        /\ name = (if Os.IsDir target then Os.Name link ++ "/"
                   else Os.Name link)
        /\ In (mkItem name (Os.IsDir target)
                 (anchor name
                  ++ line (formattedName name)
                       (Time.Format (Os.ModTime link))
                       (if Os.IsDir target then "-"
                        else Fmt.decimal (Os.Size target))))
              sorted)
  /\ (forall linkPath e,
      Os.Readlink fs (Filepath.Join (resolve h c) (Os.Name link))
      = Os.Ok linkPath ->
      Os.Lstat fs linkPath = Os.Err e ->
      Os.IsNotExist e = true ->
      scan fs (resolve h c) (pre ++ link :: post) []
      = scan fs (resolve h c) (pre ++ post) [])
  /\ (forall e,
      Os.Readlink fs (Filepath.Join (resolve h c) (Os.Name link)) = Os.Err e
      \/ (exists linkPath,
            Os.Readlink fs (Filepath.Join (resolve h c) (Os.Name link))
            = Os.Ok linkPath
            /\ Os.Lstat fs linkPath = Os.Err e
            /\ Os.IsNotExist e = false) ->
      Forall (fun fi => Os.Name fi <> "index.html") pre ->
      IsDirectory fs (resolve h c) = (true, None) ->
      exists e',
        HandleDirList fs h (resolve h c) (cached h c)
        = Returned (redirected (cached h c), false, Some e')
        /\ Handle fs h c
           = Returned (call (redirected (cached h c))
                         (AbortWithError 500 e'))).
Proof.
  intros Hrd Hsym Hname. split; [|split].
  - intros linkPath target c' err Hrl Hls Hok.
    rewrite (HandleDirList_scan _ _ _ _ _ Hrd) in Hok.
    destruct (scan fs (resolve h c) (pre ++ link :: post) [])
      as [items| |e] eqn:Hscan; try discriminate.
    destruct (Sort items) as [sorted|] eqn:Hsort; [|discriminate].
    inversion Hok; subst.
    exists sorted. eexists. split; [|split; [reflexivity|]].
    + now rewrite page_cached.
    + rewrite scan_app in Hscan.
      destruct (scan fs (resolve h c) pre []) as [mid| |e] eqn:Hpre;
        try discriminate.
      rewrite (scan_link_resolved _ _ _ _ _ _ _ Hname Hsym Hrl Hls) in Hscan.
      apply scan_listed in Hscan. destruct Hscan as [added [-> _]].
      apply (Permutation_in _ (Sort_perm _ _ Hsort)).
      apply in_or_app. left. apply in_or_app. right. now left.
  - intros linkPath e Hrl Hls He.
    rewrite !scan_app.
    destruct (scan fs (resolve h c) pre []) as [mid| |e0]; try reflexivity.
    now apply (scan_link_gone _ _ _ linkPath e).
  - intros e Hfail Hpre Hdir.
    assert (exists e', scan fs (resolve h c) (pre ++ link :: post) []
                       = Failed e') as [e' Hscan].
    { rewrite scan_app.
      destruct (scan fs (resolve h c) pre []) as [mid| |e0] eqn:Hs.
      - exists e. now apply scan_link_failed.
      - exfalso. exact (scan_no_index _ _ _ Hpre [] Hs).
      - now exists e0. }
    exists e'.
    assert (HandleDirList fs h (resolve h c) (cached h c)
            = Returned (redirected (cached h c), false, Some e')) as Hh.
    { rewrite (HandleDirList_scan _ _ _ _ _ Hrd). now rewrite Hscan. }
    split; [exact Hh|].
    rewrite (Handle_dir _ _ _ Hdir). now rewrite Hh.
Qed.

(** The directory [/srv/www/links]: the link [lnk] is listed with the
    size of the file it names and with its own time; the link [gone] is
    left out. *)
Lemma C1_symlink_entries_witness :
  (Os.ReadDir Demo.fs (resolve Demo.handler (Demo.request "/links/"))
   = Os.Ok ([Demo.link "gone" Demo.t2020] ++ Demo.lnk :: [])%list
   /\ Os.is_symlink Demo.lnk = true
   /\ Os.Name Demo.lnk <> "index.html")
  /\ (exists sorted,
        In (mkItem "lnk" false
              (anchor "lnk" ++ line "lnk" "13-Sep-2020 12:26" "10"))
           sorted)
  /\ scan Demo.fs "/srv/www/links" [Demo.link "gone" Demo.t2020; Demo.lnk] []
     = scan Demo.fs "/srv/www/links" [Demo.lnk] [].
Proof.
  split; [|split].
  - split; [reflexivity | split; [reflexivity | discriminate]].
  - assert (Os.Name Demo.lnk <> "index.html") as Hname by discriminate.
    destruct (C1_symlink_entries Demo.fs Demo.handler
                (Demo.request "/links/") [Demo.link "gone" Demo.t2020] []
                Demo.lnk eq_refl eq_refl Hname) as [Hlisted _].
    destruct (Hlisted "/data/target.txt" Demo.target
                (call (cached Demo.handler (Demo.request "/links/"))
                   (page (Demo.request "/links/")
                      [entry "lnk" (Time.Format Demo.t2020) Demo.target]))
                None eq_refl eq_refl eq_refl)
      as [sorted [name [_ [Hn Hin]]]].
    exists sorted. subst name. exact Hin.
  - assert (Os.Name (Demo.link "gone" Demo.t2020) <> "index.html")
      as Hname by discriminate.
    destruct (C1_symlink_entries Demo.fs Demo.handler
                (Demo.request "/links/") [] [Demo.lnk]
                (Demo.link "gone" Demo.t2020) eq_refl eq_refl Hname)
      as [_ [Hgone _]].
    exact (Hgone "/data/missing" Os.ErrNotExist
             eq_refl eq_refl eq_refl).
Defined.

(** The claim as the specification words it fails on [/srv/www/links]:
    the file [lnk] names was changed on 14-Nov-2023, and the line of [lnk]
    shows the time of the link itself, 13-Sep-2020. *)
Lemma C1_counterexample :
  Os.is_symlink Demo.lnk = true
  /\ Os.Readlink Demo.fs (Filepath.Join "/srv/www/links" (Os.Name Demo.lnk))
     = Os.Ok "/data/target.txt"
  /\ Os.Stat Demo.fs "/data/target.txt" = Os.Ok Demo.target
  /\ Os.Lstat Demo.fs "/data/target.txt" = Os.Ok Demo.target
  /\ Time.Format (Os.ModTime Demo.target) = "14-Nov-2023 22:13"
  /\ Time.Format (Os.ModTime Demo.lnk) = "13-Sep-2020 12:26"
  /\ Handle Demo.fs Demo.handler (Demo.request "/links/")
     = Returned
         (call (cached Demo.handler (Demo.request "/links/"))
            (page (Demo.request "/links/")
               [mkItem "lnk" false
                  (anchor "lnk" ++ line "lnk" "13-Sep-2020 12:26" "10")]))
  /\ Handle Demo.fs Demo.handler (Demo.request "/links/")
     <> Returned
          (call (cached Demo.handler (Demo.request "/links/"))
             (page (Demo.request "/links/")
                [mkItem "lnk" false
                   (anchor "lnk" ++ line "lnk" "14-Nov-2023 22:13" "10")])).
Proof.
  repeat split; try reflexivity.
  vm_compute. discriminate.
Qed.

(** A link to a link to a directory: [Lstat] on the text of the first
    link reports the second link, so the child is listed as a file of 16
    bytes, although [Stat] would report a directory. *)
Example link_to_link_not_followed :
  scan Demo.fs "/srv/www/chain" [Demo.link "hop" Demo.t2020] []
  = Listed [mkItem "hop" false
              (anchor "hop" ++ line "hop" "13-Sep-2020 12:26" "16")]
  /\ Os.Readlink Demo.fs "/srv/www/chain/hop" = Os.Ok "/data/hop2"
  /\ option_map Os.IsDir
       (match Os.Stat Demo.fs "/data/hop2" with
        | Os.Ok fi => Some fi
        | Os.Err _ => None
        end) = Some true.
Proof. repeat split. Qed.

(** ** The fields of a listed item *)

(** C2, as the code has it.  In a page that was written, the items are
    the ones the loop built, rearranged; each carries the name of its own
    directory entry, a link included, followed by a slash exactly when the
    information held for it (for a link, the [Lstat] of the path the link
    names) is a directory's; its line was built in the loop from that
    name, the time of the directory entry and the size, and the page is
    the lines of the items joined as they are. *)
Theorem C2_item_fields (fs : Os.FileSystem) (h : StaticHandler)
  (path : string) (c c' : Context) (err : option Os.error) :
  HandleDirList fs h path c = Returned (c', true, err) ->
  exists itemsAll items sorted,
    Os.ReadDir fs path = Os.Ok itemsAll
    /\ scan fs path itemsAll [] = Listed items
    /\ Permutation items sorted
    /\ c' = call (redirected c)
              (Data 200 "text/html"
                 (body (pathFrm c) (pathFrm c)
                    (String.concat GoStrings.newline (map Formatted sorted))))
    /\ forall it, In it sorted ->
         exists fi info,
           In fi itemsAll
           /\ (if Os.is_symlink fi
               then exists linkPath,
                   Os.Readlink fs (Filepath.Join path (Os.Name fi))
                   = Os.Ok linkPath
                   /\ Os.Lstat fs linkPath = Os.Ok info
               else info = fi)
           /\ Name it = (if Os.IsDir info then Os.Name fi ++ "/"
                         else Os.Name fi)
           /\ IsDir it = Os.IsDir info
           /\ Formatted it
              = anchor (Name it)
                ++ line (formattedName (Name it))
                     (Time.Format (Os.ModTime fi))
                     (if Os.IsDir info then "-"
                      else Fmt.decimal (Os.Size info)).
Proof.
  intros Hok.
  destruct (HandleDirList_ok _ _ _ _ _ _ Hok)
    as [itemsAll [items [sorted [Hrd [Hscan [Hsort [_ ->]]]]]]].
  pose proof (Sort_perm _ _ Hsort) as Hperm.
  exists itemsAll, items, sorted. repeat split; auto.
  - now rewrite pathFrm_redirected, Items_Join_concat.
  - intros it Hin.
    apply (Permutation_in _ (Permutation_sym Hperm)) in Hin.
    destruct (scan_listed_in _ _ _ _ _ Hscan Hin)
      as [fi [Hfi [info [-> Hinfo]]]].
    exists fi, info. split; [exact Hfi|]. split; [exact Hinfo|].
    apply entry_shape.
Qed.

Lemma C2_item_fields_witness :
  exists itemsAll items sorted,
    Os.ReadDir Demo.fs "/srv/www/links" = Os.Ok itemsAll
    /\ scan Demo.fs "/srv/www/links" itemsAll [] = Listed items
    /\ Permutation items sorted
    /\ map Name sorted = ["lnk"].
Proof.
  destruct (C2_item_fields Demo.fs Demo.handler "/srv/www/links"
              (Demo.request "/links/")
              (call (Demo.request "/links/")
                 (page (Demo.request "/links/")
                    [entry "lnk" (Time.Format Demo.t2020) Demo.target]))
              None eq_refl)
    as [itemsAll [items [sorted [Hrd [Hscan [Hperm _]]]]]].
  exists itemsAll, items, sorted. repeat split; auto.
  vm_compute in Hrd. inversion Hrd; subst itemsAll.
  vm_compute in Hscan. inversion Hscan; subst items.
  apply Permutation_length_1_inv in Hperm. now subst sorted.
Defined.

(** The claim as the specification words it fails on [/srv/www/links]:
    the item of the link [lnk] is called [lnk], while the file the link
    resolves to is called [target.txt]. *)
Lemma C2_counterexample :
  Os.is_symlink Demo.lnk = true
  /\ Os.Readlink Demo.fs (Filepath.Join "/srv/www/links" (Os.Name Demo.lnk))
     = Os.Ok "/data/target.txt"
  /\ Os.Lstat Demo.fs "/data/target.txt" = Os.Ok Demo.target
  /\ Os.Name Demo.target = "target.txt"
  /\ scan Demo.fs "/srv/www/links" [Demo.lnk] []
     = Listed [mkItem "lnk" false
                 (anchor "lnk" ++ line "lnk" "13-Sep-2020 12:26" "10")]
  /\ Name (entry (Os.Name Demo.lnk) (Time.Format (Os.ModTime Demo.lnk))
             Demo.target)
     <> Os.Name Demo.target.
Proof.
  repeat split; try reflexivity.
  vm_compute. discriminate.
Qed.

(** ** Redirect, listing and fall-through *)



Lemma served_calls (h : StaticHandler) (c : Context) :
  exists added,
    calls (served h c) = (calls c ++ added)%list
    /\ existsb is_Data added = false.
Proof.
  unfold served, call.
  destruct (negb (String.eqb (ContentType h) EmptyString)); simpl.
  - exists [HeaderAdd "Content-Type" (ContentType h); ServeHTTP].
    now rewrite <- app_assoc.
  - now exists [ServeHTTP].
Qed.

Lemma redirected_calls (c : Context) :
  exists added,
    calls (redirected c) = (calls c ++ added)%list
    /\ existsb is_Data added = false
    /\ existsb is_ServeHTTP added = false.
Proof.
  unfold redirected.
  destruct (negb (GoStrings.HasSuffix_slash (URL_Path c))).
  - now exists [Redirect 301 (URL_Path c ++ "/")].
  - exists []. now rewrite app_nil_r.
Qed.

(** A response holds a listing page or the answer of the file server,
    never both. *)
Lemma Handle_page_or_file (fs : Os.FileSystem) (h : StaticHandler)
  (c c' : Context) :
  Handle fs h c = Returned c' ->
  exists added,
    calls c' = (calls (cached h c) ++ added)%list
    /\ (existsb is_Data added && existsb is_ServeHTTP added = false).
Proof.
  unfold Handle. fold (cached h c). fold (served h (cached h c)).
  destruct (IsDirectory fs (resolve h (cached h c))) as [isDir [e|]].
  - intros H; inversion H; subst. now exists [AbortWithError 500 e].
  - assert (forall c0, exists added,
              calls (served h c0) = (calls c0 ++ added)%list
              /\ existsb is_Data added = false) as Hserved.
    { intros c0. unfold served, call.
      destruct (negb (String.eqb (ContentType h) EmptyString)); simpl.
      - exists [HeaderAdd "Content-Type" (ContentType h); ServeHTTP].
        now rewrite <- app_assoc.
      - now exists [ServeHTTP]. }
    destruct isDir.
    + unfold HandleDirList. fold (redirected (cached h c)).
      assert (exists r, calls (redirected (cached h c))
                        = (calls (cached h c) ++ r)%list
                        /\ existsb is_Data r = false
                        /\ existsb is_ServeHTTP r = false)
        as [r [Hr [Hr1 Hr2]]].
      { unfold redirected.
        destruct (negb (GoStrings.HasSuffix_slash (URL_Path (cached h c)))).
        - now exists [Redirect 301 (URL_Path (cached h c) ++ "/")].
        - exists []. now rewrite app_nil_r. }
      destruct (Os.ReadDir fs _) as [itemsAll|e].
      * destruct (scan fs _ itemsAll []) as [items| |e].
        -- destruct (Sort items) as [sorted|]; [|discriminate].
           intros H; inversion H; subst. simpl. rewrite Hr.
           eexists. rewrite <- app_assoc. split; [reflexivity|].
           rewrite !existsb_app, Hr2. simpl. apply andb_false_r.
        -- simpl.
           fold (served h (redirected (cached h c))).
           intros H; inversion H; subst.
           destruct (Hserved (redirected (cached h c))) as [a [Ha Ha1]].
           rewrite Ha, Hr. eexists. rewrite <- app_assoc.
           split; [reflexivity|].
           now rewrite existsb_app, Hr1, Ha1.
        -- intros H; inversion H; subst. simpl. rewrite Hr.
           eexists. rewrite <- app_assoc. split; [reflexivity|].
           rewrite !existsb_app, Hr1. reflexivity.
      * intros H; inversion H; subst. simpl. rewrite Hr.
        eexists. rewrite <- app_assoc. split; [reflexivity|].
        rewrite !existsb_app, Hr1. reflexivity.
    + intros H; inversion H; subst.
      destruct (Hserved (cached h c)) as [a [Ha Ha1]].
      exists a. split; [exact Ha|]. now rewrite Ha1.
Qed.

(** C5, as the code has it.  For a directory with a child called
    [index.html], no listing page is written.  The loop stops at that
    child and the request falls through to the file server, unless a
    symbolic link read before it could not be resolved (an error other
    than a missing target): then the request is answered with status 500
    and the file server is not called.  In either case a page and the
    file server never share a response. *)
Theorem C5_index_html (fs : Os.FileSystem) (h : StaticHandler)
  (c : Context) (pre post : list Os.FileInfo) (idx : Os.FileInfo) :
  IsDirectory fs (resolve h c) = (true, None) ->
  Os.ReadDir fs (resolve h c) = Os.Ok (pre ++ idx :: post)%list ->
  Os.Name idx = "index.html" ->
  (forall c', Handle fs h c = Returned c' ->
     exists added,
       calls c' = (calls (cached h c) ++ added)%list
       /\ existsb is_Data added = false)
  /\ ((forall e, scan fs (resolve h c) pre [] <> Failed e) ->
      Handle fs h c = Returned (served h (redirected (cached h c))))
  /\ (forall e, scan fs (resolve h c) pre [] = Failed e ->
      Handle fs h c
      = Returned (call (redirected (cached h c)) (AbortWithError 500 e)))
  /\ (forall c', Handle fs h c = Returned c' ->
     exists added,
       calls c' = (calls (cached h c) ++ added)%list
       /\ (existsb is_Data added && existsb is_ServeHTTP added = false)).
Proof.
  intros Hdir Hrd Hidx.
  assert (scan fs (resolve h c) (pre ++ idx :: post) []
          = match scan fs (resolve h c) pre [] with
            | Failed e => Failed e
            | _ => IndexFound
            end) as Hscan.
  { rewrite scan_app.
    destruct (scan fs (resolve h c) pre []); try reflexivity.
    simpl. now rewrite Hidx. }
  assert (Handle fs h c
          = match scan fs (resolve h c) pre [] with
            | Failed e =>
                Returned (call (redirected (cached h c))
                            (AbortWithError 500 e))
            | _ => Returned (served h (redirected (cached h c)))
            end) as Hh.
  { rewrite (Handle_dir _ _ _ Hdir), (HandleDirList_scan _ _ _ _ _ Hrd), Hscan.
    now destruct (scan fs (resolve h c) pre []). }
  destruct (redirected_calls (cached h c)) as [r [Hr [Hr1 _]]].
  split; [|split; [|split]].
  - intros c' Hc'. rewrite Hh in Hc'.
    destruct (scan fs (resolve h c) pre []) as [items| |e];
      inversion Hc'; subst.
    + destruct (served_calls h (redirected (cached h c))) as [a [Ha Ha1]].
      exists (r ++ a)%list. rewrite Ha, Hr, <- app_assoc.
      split; [reflexivity|]. now rewrite existsb_app, Hr1, Ha1.
    + destruct (served_calls h (redirected (cached h c))) as [a [Ha Ha1]].
      exists (r ++ a)%list. rewrite Ha, Hr, <- app_assoc.
      split; [reflexivity|]. now rewrite existsb_app, Hr1, Ha1.
    + exists (r ++ [AbortWithError 500 e])%list. simpl.
      rewrite Hr, <- app_assoc.
      split; [reflexivity|]. now rewrite existsb_app, Hr1.
  - intros Hnofail. rewrite Hh.
    destruct (scan fs (resolve h c) pre []) as [items| |e]; try reflexivity.
    exfalso. exact (Hnofail e eq_refl).
  - intros e He. now rewrite Hh, He.
  - intros c'. apply Handle_page_or_file.
Qed.

(** The directory [/srv/www/docs] is handed to the file server; in
    [/srv/www/site], [index.html] follows the link [assets], whose target
    cannot be examined, and the answer is status 500. *)
Lemma C5_index_html_witness :
  Handle Demo.fs Demo.handler (Demo.request "/docs/")
  = Returned (mkContext "/docs/" "/docs/"
                [HeaderAdd "Cache-Control"
                   "no-cache, no-store, must-revalidate";
                 HeaderAdd "Pragma" "no-cache"; HeaderAdd "Expires" "0";
                 ServeHTTP])
  /\ Handle Demo.fs Demo.handler (Demo.request "/site/")
     = Returned (mkContext "/site/" "/site/"
                   [HeaderAdd "Cache-Control"
                      "no-cache, no-store, must-revalidate";
                    HeaderAdd "Pragma" "no-cache"; HeaderAdd "Expires" "0";
                    AbortWithError 500 Os.ErrPermission]).
Proof.
  split.
  - destruct (C5_index_html Demo.fs Demo.handler (Demo.request "/docs/")
                [Demo.file "a.txt" 5 Demo.t2020] []
                (Demo.file "index.html" 120 Demo.t2020)
                eq_refl eq_refl eq_refl) as [_ [Hserved _]].
    rewrite Hserved; [reflexivity|].
    intros e. vm_compute. discriminate.
  - destruct (C5_index_html Demo.fs Demo.handler (Demo.request "/site/")
                [Demo.link "assets" Demo.t2020] []
                (Demo.file "index.html" 120 Demo.t2020)
                eq_refl eq_refl eq_refl) as [_ [_ [Hfail _]]].
    rewrite (Hfail Os.ErrPermission eq_refl). reflexivity.
Defined.

(** The claim as the specification words it fails on [/srv/www/site]:
    the directory has a child called [index.html], and the request is
    answered with status 500 instead of falling through to the file
    server. *)
Lemma C5_counterexample :
  Os.ReadDir Demo.fs (resolve Demo.handler (Demo.request "/site/"))
  = Os.Ok [Demo.link "assets" Demo.t2020;
           Demo.file "index.html" 120 Demo.t2020]
  /\ IsDirectory Demo.fs (resolve Demo.handler (Demo.request "/site/"))
     = (true, None)
  /\ Handle Demo.fs Demo.handler (Demo.request "/site/")
     = Returned (mkContext "/site/" "/site/"
                   [HeaderAdd "Cache-Control"
                      "no-cache, no-store, must-revalidate";
                    HeaderAdd "Pragma" "no-cache"; HeaderAdd "Expires" "0";
                    AbortWithError 500 Os.ErrPermission])
  /\ (forall c', Handle Demo.fs Demo.handler (Demo.request "/site/")
                 = Returned c' ->
                 existsb is_ServeHTTP (calls c') = false).
Proof.
  repeat split.
  intros c' H. vm_compute in H. inversion H. reflexivity.
Qed.

(** ** Paths *)

Lemma Split_not_nil (s : string) : GoStrings.Split s <> [].
Proof.
  induction s as [|c s IH]; simpl; [discriminate|].
  destruct (GoStrings.is_slash c); [discriminate|].
  destruct (GoStrings.Split s); [contradiction | discriminate].
Qed.

(** Splitting at a separator splits both sides. *)
Lemma Split_app_slash (a b : string) :
  GoStrings.Split (a ++ String "/" b)
  = (GoStrings.Split a ++ GoStrings.Split b)%list.
Proof.
  induction a as [|c a IH]; simpl; [reflexivity|].
  rewrite IH.
  destruct (GoStrings.is_slash c); [reflexivity|].
  pose proof (Split_not_nil a) as Hne.
  destruct (GoStrings.Split a); [contradiction | reflexivity].
Qed.

Lemma Split_no_slash (e : string) :
  GoStrings.no_slash e = true -> GoStrings.Split e = [e].
Proof.
  induction e as [|c e IH]; simpl; [reflexivity|].
  intros H. apply andb_prop in H. destruct H as [Hc He].
  apply negb_true_iff in Hc. rewrite Hc, (IH He). reflexivity.
Qed.

Lemma Split_Join (es : list string) :
  es <> [] ->
  Forall (fun e => GoStrings.no_slash e = true) es ->
  GoStrings.Split (GoStrings.Join es) = es.
Proof.
  intros Hne Hall. induction Hall as [|x rest Hx Hrest IH]; [contradiction|].
  destruct rest as [|y rest].
  - simpl. now apply Split_no_slash.
  - change (GoStrings.Join (x :: y :: rest))
      with (x ++ String "/" (GoStrings.Join (y :: rest))).
    rewrite Split_app_slash, (Split_no_slash x Hx), IH; [reflexivity|].
    discriminate.
Qed.

Lemma Split_elems_no_slash (s : string) :
  Forall (fun e => GoStrings.no_slash e = true) (GoStrings.Split s).
Proof.
  induction s as [|c s IH]; simpl; [repeat constructor|].
  destruct (GoStrings.is_slash c) eqn:Hc; [now constructor|].
  destruct (GoStrings.Split s) as [|x xs]; [repeat constructor|].
  - simpl. now rewrite Hc.
  - inversion IH; subst. constructor; [|assumption].
    simpl. now rewrite Hc.
Qed.

Lemma proper_no_slash (e : string) :
  Filepath.proper e = true -> GoStrings.no_slash e = true.
Proof. unfold Filepath.proper. intros H. now apply andb_prop in H. Qed.

Lemma proper_not_empty (e : string) :
  Filepath.proper e = true -> String.eqb e EmptyString = false.
Proof.
  unfold Filepath.proper. intros H.
  repeat (apply andb_prop in H; destruct H as [H ?]).
  now apply negb_true_iff.
Qed.

Lemma proper_not_dotdot (e : string) :
  Filepath.proper e = true -> e <> "..".
Proof.
  intros H ->. discriminate.
Qed.

(** On a rooted path the elements [Clean] keeps are proper names. *)
Lemma clean_step_proper (st : list string) (elem : string) :
  Forall (fun e => Filepath.proper e = true) st ->
  GoStrings.no_slash elem = true ->
  Forall (fun e => Filepath.proper e = true) (Filepath.clean_step true st elem).
Proof.
  intros Hst Hel. unfold Filepath.clean_step.
  destruct (String.eqb elem EmptyString) eqn:H0; [exact Hst|].
  destruct (String.eqb elem Filepath.dot) eqn:H1; [exact Hst|].
  destruct (String.eqb elem Filepath.dotdot) eqn:H2.
  - destruct st as [|top below]; [constructor|].
    inversion Hst as [|? ? Htop Hbelow]; subst.
    destruct (String.eqb_spec top Filepath.dotdot) as [->|_];
      [discriminate | exact Hbelow].
  - constructor; [|exact Hst].
    unfold Filepath.proper. now rewrite H0, H1, H2, Hel.
Qed.

Lemma clean_fold_proper (elems st : list string) :
  Forall (fun e => GoStrings.no_slash e = true) elems ->
  Forall (fun e => Filepath.proper e = true) st ->
  Forall (fun e => Filepath.proper e = true)
    (fold_left (Filepath.clean_step true) elems st).
Proof.
  intros Hel. revert st. induction Hel as [|x rest Hx Hrest IH]; intros st Hst;
    simpl; [exact Hst|].
  apply IH. now apply clean_step_proper.
Qed.

Lemma clean_elems_proper (elems : list string) :
  Forall (fun e => GoStrings.no_slash e = true) elems ->
  Forall (fun e => Filepath.proper e = true) (Filepath.clean_elems true elems).
Proof.
  intros Hel. unfold Filepath.clean_elems.
  apply Forall_rev. apply clean_fold_proper; [exact Hel | constructor].
Qed.

(** Elements that are empty or proper names: [Clean] drops the empty
    ones and keeps the others in place. *)
Lemma clean_fold_plain (elems st : list string) :
  Forall (fun e => e = EmptyString \/ Filepath.proper e = true) elems ->
  fold_left (Filepath.clean_step true) elems st
  = (rev (filter (fun e => negb (String.eqb e EmptyString)) elems) ++ st)%list.
Proof.
  intros Hel. revert st. induction Hel as [|x rest Hx Hrest IH]; intros st;
    simpl; [reflexivity|].
  rewrite IH. destruct Hx as [->|Hx]; [reflexivity|].
  rewrite (proper_not_empty x Hx). simpl. rewrite <- app_assoc. simpl.
  f_equal. unfold Filepath.clean_step.
  rewrite (proper_not_empty x Hx).
  unfold Filepath.proper in Hx.
  repeat (apply andb_prop in Hx; destruct Hx as [Hx ?]).
  repeat match goal with
         | H : negb _ = true |- _ => apply negb_true_iff in H; rewrite H
         end.
  reflexivity.
Qed.

Lemma clean_elems_plain (elems : list string) :
  Forall (fun e => e = EmptyString \/ Filepath.proper e = true) elems ->
  Filepath.clean_elems true elems
  = filter (fun e => negb (String.eqb e EmptyString)) elems.
Proof.
  intros Hel. unfold Filepath.clean_elems.
  rewrite (clean_fold_plain _ _ Hel), app_nil_r. apply rev_involutive.
Qed.

(** A rooted path cleans to the root followed by proper names. *)
Lemma Clean_rooted (path : string) :
  GoStrings.HasPrefix_slash path = true ->
  Filepath.Clean path
  = "/" ++ GoStrings.Join (Filepath.clean_elems true (GoStrings.Split path)).
Proof.
  intros Hr. unfold Filepath.Clean. rewrite Hr. reflexivity.
Qed.

Lemma filter_proper (ps : list string) :
  Forall (fun e => Filepath.proper e = true) ps ->
  filter (fun e => negb (String.eqb e EmptyString)) ps = ps.
Proof.
  intros Hps. apply forallb_filter_id. apply forallb_forall.
  rewrite Forall_forall in Hps. intros e He.
  now rewrite (proper_not_empty e (Hps e He)).
Qed.

(** The elements of a root followed by proper names are these names. *)
Lemma Split_rooted_Join (ps : list string) :
  Forall (fun e => Filepath.proper e = true) ps ->
  Forall (fun e => e = EmptyString \/ Filepath.proper e = true)
    (GoStrings.Split ("/" ++ GoStrings.Join ps))
  /\ filter (fun e => negb (String.eqb e EmptyString))
       (GoStrings.Split ("/" ++ GoStrings.Join ps)) = ps.
Proof.
  intros Hps.
  change ("/" ++ GoStrings.Join ps) with (String "/" (GoStrings.Join ps)).
  simpl GoStrings.Split.
  destruct ps as [|p ps'].
  - simpl. split; [repeat constructor; now left | reflexivity].
  - rewrite Split_Join; [|discriminate|].
    + split.
      * constructor; [now left|].
        eapply Forall_impl; [|exact Hps]. intros e He. now right.
      * transitivity (filter (fun e => negb (String.eqb e EmptyString))
                        (p :: ps')); [reflexivity|].
        now apply filter_proper.
    + eapply Forall_impl; [|exact Hps]. intros e. apply proper_no_slash.
Qed.

(** A rooted path that [Clean] leaves alone is the root followed by
    proper names, and these are its elements. *)
Lemma abs_clean_shape (root : string) :
  Filepath.is_abs_clean root = true ->
  exists rs,
    Forall (fun e => Filepath.proper e = true) rs
    /\ root = "/" ++ GoStrings.Join rs
    /\ Filepath.elements root = rs.
Proof.
  unfold Filepath.is_abs_clean. intros H.
  apply andb_prop in H. destruct H as [Hr Hc].
  apply String.eqb_eq in Hc.
  exists (Filepath.clean_elems true (GoStrings.Split root)).
  assert (Forall (fun e => Filepath.proper e = true)
            (Filepath.clean_elems true (GoStrings.Split root))) as Hp
    by apply clean_elems_proper, Split_elems_no_slash.
  split; [exact Hp|].
  assert (root = "/" ++ GoStrings.Join
                          (Filepath.clean_elems true (GoStrings.Split root)))
    as E by (rewrite <- (Clean_rooted root Hr); now symmetry).
  split; [exact E|].
  unfold Filepath.elements. rewrite E at 1.
  now apply Split_rooted_Join.
Qed.

(** The path of a request, cleaned: the root followed by proper names. *)
Lemma Clean_request_shape (param : string) :
  exists qs,
    Forall (fun e => Filepath.proper e = true) qs
    /\ Filepath.Clean ("/" ++ param) = "/" ++ GoStrings.Join qs
    /\ Filepath.elements (Filepath.Clean ("/" ++ param)) = qs.
Proof.
  exists (Filepath.clean_elems true (GoStrings.Split ("/" ++ param))).
  assert (Forall (fun e => Filepath.proper e = true)
            (Filepath.clean_elems true (GoStrings.Split ("/" ++ param))))
    as Hp by apply clean_elems_proper, Split_elems_no_slash.
  split; [exact Hp|].
  assert (Filepath.Clean ("/" ++ param)
          = "/" ++ GoStrings.Join
                     (Filepath.clean_elems true
                        (GoStrings.Split ("/" ++ param)))) as E
    by now apply Clean_rooted.
  split; [exact E|].
  unfold Filepath.elements. rewrite E.
  now apply Split_rooted_Join.
Qed.

(** C6. The path a request resolves to is the root followed by the
    elements of the cleaned request path, none of which is empty, [.],
    [..] or holds a separator: whatever the request, the resolved path
    stays below the root.  The root is what [filepath.Abs] returns in
    [main]: rooted and clean. *)
Theorem C6_no_path_traversal (h : StaticHandler) (c : Context) :
  Filepath.is_abs_clean (Root h) = true ->
  exists below,
    below = Filepath.elements (Filepath.Clean ("/" ++ Param_filepath c))
    /\ Forall (fun e => Filepath.proper e = true) below
    /\ resolve h c = "/" ++ GoStrings.Join (Filepath.elements (Root h) ++ below)
    /\ Filepath.elements (resolve h c)
       = (Filepath.elements (Root h) ++ below)%list
    /\ Forall (fun e => e <> "..") (Filepath.elements (resolve h c))
    /\ Filepath.within (Root h) (resolve h c) = true.
Proof.
  intros Habs.
  destruct (abs_clean_shape (Root h) Habs) as [rs [Hrs [Hroot Hre]]].
  destruct (Clean_request_shape (Param_filepath c)) as [qs [Hqs [Hq Hqe]]].
  exists qs. split; [now symmetry|]. split; [exact Hqs|].
  assert (Forall (fun e => Filepath.proper e = true) (rs ++ qs)) as Hall
    by (apply Forall_app; now split).
  assert (resolve h c = "/" ++ GoStrings.Join (rs ++ qs)) as Hres.
  { unfold resolve, Filepath.FromSlash, Filepath.Join.
    assert (String.eqb (Root h) EmptyString = false) as Hne
      by (rewrite Hroot; reflexivity).
    rewrite Hne. simpl negb. cbv iota.
    change (Root h ++ "/" ++ Filepath.Clean ("/" ++ Param_filepath c))
      with (Root h ++ String "/" (Filepath.Clean ("/" ++ Param_filepath c))).
    rewrite Clean_rooted by (rewrite Hroot; reflexivity).
    rewrite Split_app_slash.
    destruct (Split_rooted_Join rs Hrs) as [Hr1 Hr2].
    destruct (Split_rooted_Join qs Hqs) as [Hq1 Hq2].
    rewrite clean_elems_plain.
    - rewrite filter_app. rewrite Hroot at 1. rewrite Hr2, Hq, Hq2.
      reflexivity.
    - apply Forall_app. split.
      + rewrite Hroot. exact Hr1.
      + rewrite Hq. exact Hq1. }
  assert (Filepath.elements (resolve h c) = (rs ++ qs)%list) as Hel.
  { unfold Filepath.elements. rewrite Hres.
    now apply Split_rooted_Join. }
  rewrite Hre. split; [exact Hres|]. split; [exact Hel|]. split.
  - rewrite Hel. eapply Forall_impl; [|exact Hall].
    intros e. apply proper_not_dotdot.
  - unfold Filepath.within. rewrite Hel, Hre.
    apply andb_true_intro. split.
    + clear. induction rs as [|r rs IH]; [reflexivity|].
      simpl. now rewrite String.eqb_refl, IH.
    + apply forallb_forall. rewrite Forall_forall in Hall. exact Hall.
Qed.

(** The request [/../../etc/passwd] stays below [/srv/www]. *)
Lemma C6_no_path_traversal_witness :
  Filepath.is_abs_clean "/srv/www" = true
  /\ resolve Demo.handler (Demo.request "/../../etc/passwd")
     = "/srv/www/etc/passwd"
  /\ Filepath.within "/srv/www"
       (resolve Demo.handler (Demo.request "/../../etc/passwd")) = true.
Proof.
  split; [reflexivity|]. split; [reflexivity|].
  destruct (C6_no_path_traversal Demo.handler
              (Demo.request "/../../etc/passwd") eq_refl)
    as [below [_ [_ [_ [_ [_ Hw]]]]]].
  exact Hw.
Defined.

Example Clean_examples :
  Filepath.Clean "/../a//b/./c/.." = "/a/b"
  /\ Filepath.Clean "//" = "/"
  /\ Filepath.Clean "/a/../../.." = "/"
  /\ Filepath.Clean "a/../.." = ".."
  /\ Filepath.Clean EmptyString = "."
  /\ Filepath.Join "/" (Filepath.Clean "//x/../y") = "/y".
Proof. repeat split. Qed.

(* ================================================================== *)
(** * Further properties of the handler *)

Lemma calls_cached (h : StaticHandler) (c : Context) :
  calls (cached h c) = (calls c ++ cache_headers h)%list.
Proof.
  unfold cached, cache_headers, call. destruct (Cache h); simpl.
  - now rewrite app_nil_r.
  - now rewrite <- !app_assoc.
Qed.

Lemma URL_Path_cached (h : StaticHandler) (c : Context) :
  URL_Path (cached h c) = URL_Path c.
Proof. unfold cached. now destruct (negb (Cache h)). Qed.

Lemma calls_served (h : StaticHandler) (c : Context) :
  calls (served h c) = (calls c ++ forced_type h ++ [ServeHTTP])%list.
Proof.
  unfold served, forced_type, call.
  destruct (String.eqb (ContentType h) EmptyString); simpl;
    [reflexivity | now rewrite <- app_assoc].
Qed.

Lemma calls_redirected (c : Context) :
  calls (redirected c)
  = (calls c ++ (if GoStrings.HasSuffix_slash (URL_Path c) then []
                 else [Redirect 301 (URL_Path c ++ "/")]))%list.
Proof.
  unfold redirected.
  destruct (GoStrings.HasSuffix_slash (URL_Path c)); simpl;
    [now rewrite app_nil_r | reflexivity].
Qed.

(** The calls of a response, in order: the cache headers, the redirect
    of a directory asked for without its slash, and one ending. *)
Lemma Handle_calls (fs : Os.FileSystem) (h : StaticHandler)
  (c c' : Context) :
  Handle fs h c = Returned c' ->
  exists ending,
    calls c'
    = (calls c ++ cache_headers h ++ redirect_of fs h c ++ ending)%list
    /\ response_end h ending.
Proof.
  unfold Handle. fold (cached h c). fold (served h (cached h c)).
  unfold redirect_of. rewrite resolve_cached.
  destruct (IsDirectory fs (resolve h c)) as [isDir [e|]].
  - intros H; inversion H; subst. exists [AbortWithError 500 e].
    split; [|constructor].
    simpl. rewrite calls_cached, <- app_assoc.
    now destruct isDir.
  - destruct isDir.
    + unfold HandleDirList. fold (redirected (cached h c)).
      assert (forall tail,
                (calls (redirected (cached h c)) ++ tail
                 = calls c ++ cache_headers h
                   ++ (if GoStrings.HasSuffix_slash (URL_Path c) then []
                       else [Redirect 301 (URL_Path c ++ "/")]) ++ tail)%list)
        as Hpre.
      { intros tail.
        rewrite calls_redirected, calls_cached, URL_Path_cached.
        now rewrite <- !app_assoc. }
      destruct (Os.ReadDir fs (resolve h c)) as [itemsAll|e].
      * destruct (scan fs (resolve h c) itemsAll []) as [items| |e].
        -- destruct (Sort items) as [sorted|]; [|discriminate].
           intros H; inversion H; subst. eexists.
           split; [apply Hpre | constructor].
        -- fold (served h (redirected (cached h c))).
           intros H; inversion H; subst. eexists.
           rewrite calls_served. split; [apply Hpre | constructor].
        -- intros H; inversion H; subst. eexists.
           split; [apply Hpre | constructor].
      * intros H; inversion H; subst. eexists.
        split; [apply Hpre | constructor].
    + intros H; inversion H; subst. eexists.
      rewrite calls_served, calls_cached, <- app_assoc.
      split; [reflexivity | constructor].
Qed.

Lemma response_end_facts (h : StaticHandler) (ending : list Call) :
  response_end h ending ->
  existsb is_cache_header ending = false
  /\ existsb is_Redirect ending = false
  /\ (exists pre k, ending = (pre ++ [k])%list /\ is_final k = true
                    /\ existsb is_final pre = false
                    /\ existsb is_Redirect pre = false)
  /\ (existsb is_content_type ending
      = negb (String.eqb (ContentType h) EmptyString)
        && existsb is_ServeHTTP ending)
  /\ (forall key value, In (HeaderAdd key value) ending ->
        key = "Content-Type" /\ value = ContentType h)
  /\ (forall code ct data, In (Data code ct data) ending ->
        code = 200%Z /\ ct = "text/html")
  /\ (forall code e, In (AbortWithError code e) ending -> code = 500%Z).
Proof.
  intros [e| |data].
  - split; [reflexivity|]. split; [reflexivity|].
    split; [exists [], (AbortWithError 500 e); now repeat split|].
    split; [simpl; now rewrite andb_false_r|].
    split; [intros key val Hin | split;
            [intros code ct d Hin | intros code e0 Hin]];
      member_of Hin.
  - unfold forced_type.
    destruct (String.eqb (ContentType h) EmptyString); simpl.
    + split; [reflexivity|]. split; [reflexivity|].
      split; [exists [], ServeHTTP; now repeat split|].
      split; [reflexivity|].
      split; [intros key val Hin | split;
              [intros code ct d Hin | intros code e0 Hin]];
        member_of Hin.
    + split; [reflexivity|]. split; [reflexivity|].
      split; [exists [HeaderAdd "Content-Type" (ContentType h)], ServeHTTP;
              now repeat split|].
      split; [reflexivity|].
      split; [intros key val Hin | split;
              [intros code ct d Hin | intros code e0 Hin]];
        member_of Hin.
  - split; [reflexivity|]. split; [reflexivity|].
    split; [exists [], (Data 200 "text/html" data); now repeat split|].
    split; [simpl; now rewrite andb_false_r|].
    split; [intros key val Hin | split;
            [intros code ct d Hin | intros code e0 Hin]];
      member_of Hin.
Qed.

Lemma redirect_of_facts (fs : Os.FileSystem) (h : StaticHandler)
  (c : Context) :
  existsb is_cache_header (redirect_of fs h c) = false
  /\ existsb is_final (redirect_of fs h c) = false
  /\ existsb is_content_type (redirect_of fs h c) = false
  /\ existsb is_ServeHTTP (redirect_of fs h c) = false
  /\ (forall k, In k (redirect_of fs h c) ->
        k = Redirect 301 (URL_Path c ++ "/")).
Proof.
  unfold redirect_of.
  assert (existsb is_cache_header [] = false
          /\ existsb is_final [] = false
          /\ existsb is_content_type [] = false
          /\ existsb is_ServeHTTP [] = false
          /\ (forall k, In k [] -> k = Redirect 301 (URL_Path c ++ "/")))
    as Hnil by (repeat split; contradiction).
  destruct (IsDirectory fs (resolve h c)) as [[|] [e|]]; try exact Hnil.
  destruct (GoStrings.HasSuffix_slash (URL_Path c)); [exact Hnil|].
  split; [reflexivity|]. split; [reflexivity|]. split; [reflexivity|].
  split; [reflexivity|]. intros k Hin. member_of Hin.
Qed.

Lemma cache_headers_facts (h : StaticHandler) :
  existsb is_final (cache_headers h) = false
  /\ existsb is_Redirect (cache_headers h) = false
  /\ existsb is_content_type (cache_headers h) = false
  /\ existsb is_ServeHTTP (cache_headers h) = false.
Proof. unfold cache_headers. now destruct (Cache h). Qed.

(** X1. With the cache off, every response starts with the three
    headers [Cache-Control: no-cache, no-store, must-revalidate],
    [Pragma: no-cache] and [Expires: 0], before anything else the handler
    does; with the cache on, the handler adds none of them.  In both
    cases no later call of the handler sets one of these headers. *)
Theorem X1_cache_headers (fs : Os.FileSystem) (h : StaticHandler)
  (c c' : Context) :
  Handle fs h c = Returned c' ->
  exists rest,
    existsb is_cache_header rest = false
    /\ (Cache h = false ->
        calls c'
        = (calls c
           ++ [HeaderAdd "Cache-Control" "no-cache, no-store, must-revalidate";
               HeaderAdd "Pragma" "no-cache";
               HeaderAdd "Expires" "0"]
           ++ rest)%list)
    /\ (Cache h = true -> calls c' = (calls c ++ rest)%list).
Proof.
  intros H. destruct (Handle_calls _ _ _ _ H) as [ending [Hc He]].
  exists (redirect_of fs h c ++ ending)%list.
  destruct (response_end_facts _ _ He) as [H1 _].
  destruct (redirect_of_facts fs h c) as [H2 _].
  split; [now rewrite existsb_app, H1, H2|].
  unfold cache_headers in Hc.
  split; intros Hcache; rewrite Hcache in Hc; exact Hc.
Qed.

Lemma X1_cache_headers_witness :
  exists rest,
    existsb is_cache_header rest = false
    /\ calls (mkContext "/b.txt" "/b.txt"
                [HeaderAdd "Cache-Control"
                   "no-cache, no-store, must-revalidate";
                 HeaderAdd "Pragma" "no-cache"; HeaderAdd "Expires" "0";
                 ServeHTTP])
       = ([] ++ [HeaderAdd "Cache-Control"
                   "no-cache, no-store, must-revalidate";
                 HeaderAdd "Pragma" "no-cache";
                 HeaderAdd "Expires" "0"] ++ rest)%list.
Proof.
  destruct (X1_cache_headers Demo.fs Demo.handler (Demo.request "/b.txt")
              (mkContext "/b.txt" "/b.txt"
                 [HeaderAdd "Cache-Control"
                    "no-cache, no-store, must-revalidate";
                  HeaderAdd "Pragma" "no-cache"; HeaderAdd "Expires" "0";
                  ServeHTTP]) eq_refl) as [rest [Hno [Hoff _]]].
  exists rest. split; [exact Hno|]. exact (Hoff eq_refl).
Defined.



(** X3. The forced content type goes to the file server only: the
    handler sets a [Content-Type] header exactly when a type is forced
    and the response is handed to the file server, and then with the
    forced value; a listing page is always written with status 200 as
    [text/html], and an error answer always has status 500. *)
Theorem X3_forced_content_type (fs : Os.FileSystem) (h : StaticHandler)
  (c c' : Context) :
  Handle fs h c = Returned c' ->
  exists added,
    calls c' = (calls c ++ added)%list
    /\ existsb is_content_type added
       = negb (String.eqb (ContentType h) EmptyString)
         && existsb is_ServeHTTP added
    /\ (forall v, In (HeaderAdd "Content-Type" v) added ->
                  v = ContentType h)
    /\ (forall code ct data, In (Data code ct data) added ->
                             code = 200%Z /\ ct = "text/html")
    /\ (forall code e, In (AbortWithError code e) added -> code = 500%Z).
Proof.
  intros H. destruct (Handle_calls _ _ _ _ H) as [ending [Hc He]].
  destruct (response_end_facts _ _ He)
    as [_ [_ [_ [Hct [Hhdr [Hdata Herr]]]]]].
  destruct (redirect_of_facts fs h c) as [_ [_ [Hr1 [Hr2 Hr]]]].
  destruct (cache_headers_facts h) as [_ [_ [Hh1 Hh2]]].
  exists (cache_headers h ++ redirect_of fs h c ++ ending)%list.
  split; [exact Hc|]. split; [|split; [|split]].
  - now rewrite !existsb_app, Hh1, Hh2, Hr1, Hr2.
  - intros v Hin. apply in_app_or in Hin. destruct Hin as [Hin|Hin].
    + unfold cache_headers in Hin. destruct (Cache h); member_of Hin.
    + apply in_app_or in Hin. destruct Hin as [Hin|Hin].
      * apply Hr in Hin. discriminate.
      * now apply (Hhdr _ _ Hin).
  - intros code ct data Hin. apply in_app_or in Hin.
    destruct Hin as [Hin|Hin].
    + unfold cache_headers in Hin. destruct (Cache h); member_of Hin.
    + apply in_app_or in Hin. destruct Hin as [Hin|Hin].
      * apply Hr in Hin. discriminate.
      * now apply (Hdata _ _ _ Hin).
  - intros code e Hin. apply in_app_or in Hin.
    destruct Hin as [Hin|Hin].
    + unfold cache_headers in Hin. destruct (Cache h); member_of Hin.
    + apply in_app_or in Hin. destruct Hin as [Hin|Hin].
      * apply Hr in Hin. discriminate.
      * now apply (Herr _ _ Hin).
Qed.

(** A handler that forces [text/plain]: the file [/b.txt] gets the
    header, the listing of [/] does not. *)
Lemma X3_forced_content_type_witness :
  (exists added,
     calls (mkContext "/b.txt" "/b.txt"
              [HeaderAdd "Content-Type" "text/plain"; ServeHTTP])
     = ([] ++ added)%list
     /\ existsb is_content_type added = true)
  /\ (exists c' added,
        Handle Demo.fs (mkStaticHandler "/srv/www" true "text/plain")
          (Demo.request "/") = Returned c'
        /\ calls c' = ([] ++ added)%list
        /\ existsb is_content_type added = false).
Proof.
  split.
  - destruct (X3_forced_content_type Demo.fs
                (mkStaticHandler "/srv/www" true "text/plain")
                (Demo.request "/b.txt")
                (mkContext "/b.txt" "/b.txt"
                   [HeaderAdd "Content-Type" "text/plain"; ServeHTTP])
                eq_refl) as [added [Hc [Hct _]]].
    exists added. split; [exact Hc|].
    simpl in Hc. subst added. reflexivity.
  - destruct (Handle Demo.fs (mkStaticHandler "/srv/www" true "text/plain")
                (Demo.request "/")) as [c'|] eqn:Hh;
      [|vm_compute in Hh; discriminate].
    destruct (X3_forced_content_type _ _ _ _ Hh) as [added [Hc [Hct _]]].
    exists c', added. split; [reflexivity|]. split; [exact Hc|].
    vm_compute in Hh. inversion Hh; subst c'.
    simpl in Hc. subst added. reflexivity.
Defined.

(** X4. The handler redirects exactly the requests for a directory whose
    path lacks the final slash, whatever the directory holds or whether
    it can be read at all; the redirect has status 301 and goes to the
    request path followed by a slash.  A request for a file, or for a
    path that does not exist, is never redirected. *)
Theorem X4_redirect_iff_directory_without_slash (fs : Os.FileSystem)
  (h : StaticHandler) (c c' : Context) :
  Handle fs h c = Returned c' ->
  exists added,
    calls c' = (calls c ++ added)%list
    /\ (existsb is_Redirect added = true
        <-> IsDirectory fs (resolve h c) = (true, None)
            /\ GoStrings.HasSuffix_slash (URL_Path c) = false)
    /\ (forall code location, In (Redirect code location) added ->
          code = 301%Z /\ location = URL_Path c ++ "/").
Proof.
  intros H. destruct (Handle_calls _ _ _ _ H) as [ending [Hc He]].
  destruct (response_end_facts _ _ He) as [_ [Hend _]].
  destruct (redirect_of_facts fs h c) as [_ [_ [_ [_ Hr]]]].
  destruct (cache_headers_facts h) as [_ [Hh _]].
  exists (cache_headers h ++ redirect_of fs h c ++ ending)%list.
  split; [exact Hc|]. split.
  - rewrite !existsb_app, Hh, Hend, orb_false_r. simpl.
    unfold redirect_of.
    destruct (IsDirectory fs (resolve h c)) as [[|] [e|]]; simpl;
      try (split; [discriminate | intros [Hd _]; discriminate]).
    destruct (GoStrings.HasSuffix_slash (URL_Path c)); simpl.
    + split; [discriminate | intros [_ Hs]; discriminate].
    + split; auto.
  - intros code location Hin.
    assert (In (Redirect code location) (redirect_of fs h c)) as Hin'.
    { apply in_app_or in Hin. destruct Hin as [Hin|Hin].
      - unfold cache_headers in Hin. destruct (Cache h); member_of Hin.
      - apply in_app_or in Hin. destruct Hin as [Hin|Hin]; [exact Hin|].
        exfalso. assert (existsb is_Redirect ending = true) as Hex
          by (apply existsb_exists; eexists; split; [exact Hin|reflexivity]).
        congruence. }
    apply Hr in Hin'. now inversion Hin'.
Qed.

Lemma X4_redirect_iff_directory_without_slash_witness :
  exists c' added,
    Handle Demo.fs Demo.handler (Demo.request "/site") = Returned c'
    /\ calls c' = ([] ++ added)%list
    /\ existsb is_Redirect added = true
    /\ In (AbortWithError 500 Os.ErrPermission) added.
Proof.
  destruct (Handle Demo.fs Demo.handler (Demo.request "/site"))
    as [c'|] eqn:Hh; [|vm_compute in Hh; discriminate].
  destruct (X4_redirect_iff_directory_without_slash _ _ _ _ Hh)
    as [added [Hc [Hiff _]]].
  exists c', added. split; [reflexivity|]. split; [exact Hc|].
  split.
  - apply Hiff. split; reflexivity.
  - vm_compute in Hh. inversion Hh; subst c'. simpl in Hc. subst added.
    simpl. tauto.
Defined.

(** X5. A request whose path is a file, or does not exist, is handed to
    the file server as it is (after the cache headers and the forced
    content type): the handler reads no directory and writes no page, so
    a missing path is answered by the file server and not by the
    handler.  When [Stat] fails for another reason, the answer is status
    500 with that error and the file server is not called. *)
Theorem X5_files_and_missing_paths (fs : Os.FileSystem) (h : StaticHandler)
  (c : Context) :
  match Os.Stat fs (resolve h c) with
  | Os.Ok stat =>
      Os.IsDir stat = false ->
      Handle fs h c = Returned (served h (cached h c))
  | Os.Err e =>
      Handle fs h c
      = if Os.IsNotExist e then Returned (served h (cached h c))
        else Returned (call (cached h c) (AbortWithError 500 e))
  end
  /\ calls (served h (cached h c))
     = (calls c ++ cache_headers h ++ forced_type h ++ [ServeHTTP])%list.
Proof.
  split.
  - unfold Handle. fold (cached h c). fold (served h (cached h c)).
    rewrite resolve_cached. unfold IsDirectory.
    destruct (Os.Stat fs (resolve h c)) as [stat|e].
    + intros Hfile. now rewrite Hfile.
    + now destruct (Os.IsNotExist e).
  - now rewrite calls_served, calls_cached, <- app_assoc.
Qed.

(** X6. A directory that cannot be read is answered with status 500
    carrying the error of [ReadDir]; no page is written and the file
    server is not called.  The redirect of a path without its final
    slash has been sent before the directory is read. *)
Theorem X6_unreadable_directory (fs : Os.FileSystem) (h : StaticHandler)
  (c : Context) (e : Os.error) :
  IsDirectory fs (resolve h c) = (true, None) ->
  Os.ReadDir fs (resolve h c) = Os.Err e ->
  exists c',
    Handle fs h c = Returned c'
    /\ calls c'
       = (calls c ++ cache_headers h
          ++ (if GoStrings.HasSuffix_slash (URL_Path c) then []
              else [Redirect 301 (URL_Path c ++ "/")])
          ++ [AbortWithError 500 e])%list.
Proof.
  intros Hdir Hrd. rewrite (Handle_dir _ _ _ Hdir).
  unfold HandleDirList. fold (redirected (cached h c)). rewrite Hrd.
  eexists. split; [reflexivity|]. simpl.
  rewrite calls_redirected, calls_cached, URL_Path_cached.
  now rewrite <- !app_assoc.
Qed.

(** X7. The handler returns: it cannot panic on a request whose
    directory, if it is one that can be read, has no child with an empty
    name (the only panic in the handler is the slice [Name[:1]] in
    [Less]). *)
Theorem X7_handler_returns (fs : Os.FileSystem) (h : StaticHandler)
  (c : Context) :
  (forall itemsAll,
      Os.ReadDir fs (resolve h c) = Os.Ok itemsAll ->
      Forall (fun fi => Os.Name fi <> EmptyString) itemsAll) ->
  exists c', Handle fs h c = Returned c'.
Proof.
  intros Hnamed. unfold Handle. fold (cached h c).
  rewrite resolve_cached.
  destruct (IsDirectory fs (resolve h c)) as [isDir [e|]];
    [eexists; reflexivity|].
  destruct isDir; [|eexists; reflexivity].
  unfold HandleDirList.
  destruct (Os.ReadDir fs (resolve h c)) as [itemsAll|e];
    [|eexists; reflexivity].
  destruct (scan fs (resolve h c) itemsAll []) as [items| |e] eqn:Hscan;
    try (eexists; reflexivity).
  destruct (Sort_sorted items
              (scan_all_named _ _ _ _ (Hnamed _ eq_refl) Hscan))
    as [sorted [-> _]].
  eexists; reflexivity.
Qed.

Lemma X7_handler_returns_witness :
  exists c', Handle Demo.fs Demo.handler (Demo.request "/") = Returned c'.
Proof.
  apply X7_handler_returns.
  intros itemsAll H. vm_compute in H. inversion H; subst.
  repeat constructor; discriminate.
Defined.

(** The edge the hypothesis excludes: two children, one without a name. *)
Example Sort_panics_on_empty_name :
  Sort [mkItem EmptyString false EmptyString; mkItem "a" false EmptyString]
  = Panicked
  /\ Sort [mkItem EmptyString false EmptyString] =
     Returned [mkItem EmptyString false EmptyString].
Proof. split; reflexivity. Qed.

Lemma X6_unreadable_directory_witness :
  exists c',
    Handle Demo2.fs Demo.handler (Demo.request "/locked") = Returned c'
    /\ calls c'
       = [HeaderAdd "Cache-Control" "no-cache, no-store, must-revalidate";
          HeaderAdd "Pragma" "no-cache"; HeaderAdd "Expires" "0";
          Redirect 301 "/locked/";
          AbortWithError 500 Os.ErrPermission].
Proof.
  exact (X6_unreadable_directory Demo2.fs Demo.handler
           (Demo.request "/locked") Os.ErrPermission eq_refl eq_refl).
Defined.

(** ** What the loop keeps *)

Lemma scan_dangling (fs : Os.FileSystem) (path : string)
  (itemsAll : list Os.FileInfo) :
  Forall (dangling fs path) itemsAll ->
  forall acc, scan fs path itemsAll acc = Listed acc.
Proof.
  intros Hall. induction Hall as [|fi rest Hfi Hrest IH]; intros acc;
    [reflexivity|].
  destruct Hfi as [Hname [Hsym [linkPath [e [Hrl [Hls He]]]]]].
  rewrite (scan_link_gone _ _ _ linkPath e _ _ Hname Hsym Hrl Hls He).
  apply IH.
Qed.

(** X8. A directory that is empty, or holds nothing but links whose
    targets are gone, is answered with the page of an empty listing: the
    title, the heading and the parent link, and no line. *)
Theorem X8_empty_listing (fs : Os.FileSystem) (h : StaticHandler)
  (c : Context) (itemsAll : list Os.FileInfo) :
  IsDirectory fs (resolve h c) = (true, None) ->
  Os.ReadDir fs (resolve h c) = Os.Ok itemsAll ->
  Forall (dangling fs (resolve h c)) itemsAll ->
  Handle fs h c
  = Returned (call (redirected (cached h c))
                (Data 200 "text/html"
                   (body (pathFrm c) (pathFrm c) EmptyString))).
Proof.
  intros Hdir Hrd Hall.
  rewrite (Handle_dir _ _ _ Hdir), (HandleDirList_scan _ _ _ _ _ Hrd).
  rewrite (scan_dangling _ _ _ Hall). simpl.
  now rewrite page_cached.
Qed.

Lemma X8_empty_listing_witness :
  Handle Demo2.fs Demo.handler (Demo.request "/stale/")
  = Returned (call (redirected (cached Demo.handler (Demo.request "/stale/")))
                (Data 200 "text/html"
                   (body "/stale/" "/stale/" EmptyString))).
Proof.
  apply (X8_empty_listing Demo2.fs Demo.handler (Demo.request "/stale/")
           [Demo.link "one" Demo.t2020; Demo.link "two" Demo.t2020]).
  - reflexivity.
  - reflexivity.
  - repeat constructor; try discriminate.
    + exists "/gone/one", Os.ErrNotExist. now repeat split.
    + exists "two.txt", Os.ErrNotExist. now repeat split.
Defined.

Lemma scan_plain (fs : Os.FileSystem) (path : string)
  (itemsAll : list Os.FileInfo) :
  Forall (fun fi => Os.Name fi <> "index.html"
                    /\ Os.is_symlink fi = false) itemsAll ->
  forall acc,
    scan fs path itemsAll acc
    = Listed (acc ++ map (fun fi => entry (Os.Name fi)
                                      (Time.Format (Os.ModTime fi)) fi)
                       itemsAll).
Proof.
  intros Hall. induction Hall as [|fi rest [Hname Hsym] Hrest IH];
    intros acc; simpl.
  - now rewrite app_nil_r.
  - destruct (String.eqb_spec (Os.Name fi) "index.html"); [contradiction|].
    rewrite Hsym, IH. now rewrite <- app_assoc.
Qed.

(** X9. A directory without symbolic links and without [index.html]
    is always listed, whatever [Readlink] and [Lstat] would answer: the
    loop builds one item for every child, in the order of the directory,
    named after the child (with a slash for a directory) and marked as
    a directory exactly when the child is one; the page holds a
    rearrangement of these items. *)
Theorem X9_plain_directory (fs : Os.FileSystem) (h : StaticHandler)
  (c : Context) (itemsAll : list Os.FileInfo) :
  IsDirectory fs (resolve h c) = (true, None) ->
  Os.ReadDir fs (resolve h c) = Os.Ok itemsAll ->
  Forall (fun fi => Os.Name fi <> "index.html"
                    /\ Os.is_symlink fi = false) itemsAll ->
  Forall (fun fi => Os.Name fi <> EmptyString) itemsAll ->
  exists items sorted,
    scan fs (resolve h c) itemsAll [] = Listed items
    /\ map Name items
       = map (fun fi => if Os.IsDir fi then Os.Name fi ++ "/"
                        else Os.Name fi) itemsAll
    /\ map IsDir items = map Os.IsDir itemsAll
    /\ Permutation items sorted
    /\ Handle fs h c
       = Returned (call (redirected (cached h c)) (page c sorted)).
Proof.
  intros Hdir Hrd Hplain Hnamed.
  pose proof (scan_plain fs (resolve h c) itemsAll Hplain []) as Hscan.
  simpl in Hscan.
  destruct (Sort_sorted _ (scan_all_named _ _ _ _ Hnamed Hscan))
    as [sorted [Hsort [Hperm _]]].
  eexists. exists sorted. split; [exact Hscan|].
  split; [|split; [|split; [exact Hperm|]]].
  - rewrite map_map. apply map_ext. intros fi. reflexivity.
  - rewrite map_map. apply map_ext. intros fi. reflexivity.
  - rewrite (Handle_dir _ _ _ Hdir), (HandleDirList_scan _ _ _ _ _ Hrd).
    rewrite Hscan, Hsort. now rewrite page_cached.
Qed.

Lemma X9_plain_directory_witness :
  exists items sorted,
    scan Demo2.fs "/srv/www/plain"
      [Demo.file "a.txt" 1 Demo.t2020; Demo.dir "b" Demo.t2023;
       Demo.file "c.txt" 3 Demo.t2020] [] = Listed items
    /\ map Name items = ["a.txt"; "b/"; "c.txt"]
    /\ Permutation items sorted
    /\ Handle Demo2.fs Demo.handler (Demo.request "/plain/")
       = Returned (call (redirected (cached Demo.handler
                                       (Demo.request "/plain/")))
                     (page (Demo.request "/plain/") sorted)).
Proof.
  destruct (X9_plain_directory Demo2.fs Demo.handler
              (Demo.request "/plain/")
              [Demo.file "a.txt" 1 Demo.t2020; Demo.dir "b" Demo.t2023;
               Demo.file "c.txt" 3 Demo.t2020] eq_refl eq_refl)
    as [items [sorted [Hscan [Hnames [_ [Hperm Hh]]]]]].
  - repeat constructor; discriminate.
  - repeat constructor; discriminate.
  - exists items, sorted. split; [exact Hscan|].
    split; [exact Hnames|]. split; [exact Hperm | exact Hh].
Defined.

(** ** The results of [HandleDirList] and the cache flag *)

(** X21. [HandleDirList] returns [ok] exactly when it has written the
    page, and never together with an error: with [ok] the calls it made
    are the redirect, if any, and the page; without [ok] they are the
    redirect alone, if any, and the caller is left to answer. *)
Theorem X21_HandleDirList_results (fs : Os.FileSystem) (h : StaticHandler)
  (path : string) (c c' : Context) (ok : bool) (err : option Os.error) :
  HandleDirList fs h path c = Returned (c', ok, err) ->
  (ok = true -> err = None)
  /\ (ok = true ->
      exists sorted, c' = call (redirected c) (page c sorted))
  /\ (ok = false -> c' = redirected c)
  /\ (ok = false -> err = None ->
      exists itemsAll fi,
        Os.ReadDir fs path = Os.Ok itemsAll
        /\ In fi itemsAll /\ Os.Name fi = "index.html").
Proof.
  unfold HandleDirList. fold (redirected c). intros H.
  destruct (Os.ReadDir fs path) as [itemsAll|e] eqn:Hrd.
  - destruct (scan fs path itemsAll []) as [items| |e] eqn:Hscan.
    + destruct (Sort items) as [sorted|]; [|discriminate].
      inversion H; subst. repeat split; try discriminate.
      intros _. exists sorted. unfold page.
      now rewrite pathFrm_redirected, Items_Join_concat.
    + inversion H; subst. repeat split; try discriminate.
      intros _ _. exists itemsAll.
      assert (exists fi, In fi itemsAll /\ Os.Name fi = "index.html")
        as [fi Hfi]; [|now exists fi].
      clear - Hscan. revert Hscan. generalize (@nil Item).
      induction itemsAll as [|fi rest IH]; intros acc Hscan;
        [discriminate|].
      simpl in Hscan.
      destruct (String.eqb_spec (Os.Name fi) "index.html") as [E|_].
      * exists fi. split; [now left | exact E].
      * assert (forall acc', scan fs path rest acc' = IndexFound ->
                  exists fi0, In fi0 (fi :: rest)
                              /\ Os.Name fi0 = "index.html") as Hrest.
        { intros acc' Hs. destruct (IH _ Hs) as [fi0 [Hin Hn]].
          exists fi0. split; [now right | exact Hn]. }
        destruct (Os.is_symlink fi); [|now apply (Hrest _ Hscan)].
        destruct (Os.Readlink fs _) as [linkPath|e]; [|discriminate].
        destruct (Os.Lstat fs linkPath) as [itm|e];
          [now apply (Hrest _ Hscan)|].
        destruct (Os.IsNotExist e); [now apply (Hrest _ Hscan)|].
        discriminate.
    + inversion H; subst. repeat split; discriminate.
  - inversion H; subst. repeat split; discriminate.
Qed.

Lemma X21_HandleDirList_results_witness :
  exists itemsAll fi,
    Os.ReadDir Demo.fs "/srv/www/docs" = Os.Ok itemsAll
    /\ In fi itemsAll /\ Os.Name fi = "index.html".
Proof.
  destruct (X21_HandleDirList_results Demo.fs Demo.handler "/srv/www/docs"
              (Demo.request "/docs/") (Demo.request "/docs/") false None
              eq_refl) as [_ [_ [_ Hidx]]].
  exact (Hidx eq_refl eq_refl).
Defined.

(** What [Handle] does after the cache headers depends on the calls made
    before only by following them. *)
Lemma Handle_frame (fs : Os.FileSystem) (h : StaticHandler)
  (c1 c2 : Context) :
  Cache h = true ->
  Param_filepath c1 = Param_filepath c2 ->
  URL_Path c1 = URL_Path c2 ->
  match Handle fs h c1, Handle fs h c2 with
  | Returned a, Returned b =>
      exists rest,
        calls a = (calls c1 ++ rest)%list
        /\ calls b = (calls c2 ++ rest)%list
  | Panicked, Panicked => True
  | _, _ => False
  end.
Proof.
  intros Hcache Hp Hu.
  assert (resolve h c1 = resolve h c2) as Hres
    by (unfold resolve; now rewrite Hp).
  assert (pathFrm c1 = pathFrm c2) as Hfrm
    by (unfold pathFrm; now rewrite Hp).
  assert (forall k, exists rest,
            calls (call c1 k) = (calls c1 ++ rest)%list
            /\ calls (call c2 k) = (calls c2 ++ rest)%list) as Hcall
    by (intros k; now exists [k]).
  assert (exists rest,
            calls (served h c1) = (calls c1 ++ rest)%list
            /\ calls (served h c2) = (calls c2 ++ rest)%list) as Hserved
    by (eexists; split; apply calls_served).
  unfold Handle. rewrite Hcache. simpl negb. cbv iota.
  fold (served h c1). fold (served h c2). rewrite <- Hres.
  destruct (IsDirectory fs (resolve h c1)) as [isDir [e|]];
    [apply Hcall|].
  destruct isDir; [|exact Hserved].
  unfold HandleDirList. fold (redirected c1). fold (redirected c2).
  rewrite !pathFrm_redirected, <- Hfrm.
  assert (forall (tail : list Call), exists rest,
            (calls (redirected c1) ++ tail = calls c1 ++ rest
             /\ calls (redirected c2) ++ tail = calls c2 ++ rest)%list)
    as Hred.
  { intros tail. rewrite !calls_redirected, <- Hu.
    eexists. split; rewrite <- app_assoc; reflexivity. }
  destruct (Os.ReadDir fs (resolve h c1)) as [itemsAll|e];
    [|apply Hred].
  destruct (scan fs (resolve h c1) itemsAll []) as [items| |e].
  - destruct (Sort items) as [sorted|]; [|exact I]. apply Hred.
  - change (exists rest,
              calls (served h (redirected c1)) = (calls c1 ++ rest)%list
              /\ calls (served h (redirected c2)) = (calls c2 ++ rest)%list).
    rewrite !calls_served. apply Hred.
  - apply Hred.
Qed.

(** X22. The cache flag changes nothing but the three headers: with
    the cache off the handler makes the calls it makes with the cache
    on, after the three headers, and panics if and only if it panics
    with the cache on. *)
Theorem X22_cache_flag_only_adds_headers (fs : Os.FileSystem)
  (root contentType : string) (c : Context) :
  match Handle fs (mkStaticHandler root true contentType) c,
        Handle fs (mkStaticHandler root false contentType) c with
  | Returned on, Returned off =>
      exists rest,
        calls on = (calls c ++ rest)%list
        /\ calls off
           = (calls c
              ++ [HeaderAdd "Cache-Control"
                    "no-cache, no-store, must-revalidate";
                  HeaderAdd "Pragma" "no-cache";
                  HeaderAdd "Expires" "0"]
              ++ rest)%list
  | Panicked, Panicked => True
  | _, _ => False
  end.
Proof.
  set (hOn := mkStaticHandler root true contentType).
  set (hOff := mkStaticHandler root false contentType).
  assert (Handle fs hOff c = Handle fs hOn (cached hOff c)) as E
    by reflexivity.
  rewrite E.
  pose proof (Handle_frame fs hOn c (cached hOff c) eq_refl eq_refl eq_refl)
    as Hf.
  destruct (Handle fs hOn c) as [on|],
           (Handle fs hOn (cached hOff c)) as [off|]; try exact Hf.
  destruct Hf as [rest [Hon Hoff]]. exists rest.
  split; [exact Hon|].
  rewrite Hoff, calls_cached. unfold cache_headers. simpl.
  now rewrite <- app_assoc.
Qed.

(* ================================================================== *)
(** * Further properties of the paths *)

Lemma HasSuffix_slash_app (a b : string) :
  b <> EmptyString ->
  GoStrings.HasSuffix_slash (a ++ b) = GoStrings.HasSuffix_slash b.
Proof.
  intros Hb. induction a as [|x a IH]; [reflexivity|].
  simpl. rewrite <- IH.
  destruct (a ++ b) eqn:E; [|reflexivity].
  destruct a; [simpl in E; contradiction | discriminate].
Qed.

Lemma HasSuffix_slash_no_slash (e : string) :
  GoStrings.no_slash e = true -> GoStrings.HasSuffix_slash e = false.
Proof.
  induction e as [|x e IH]; [reflexivity|]. simpl. intros H.
  apply andb_prop in H. destruct H as [Hx He].
  destruct e; [now apply negb_true_iff | now apply IH].
Qed.

Lemma Join_not_empty (q : string) (qs : list string) :
  Filepath.proper q = true -> GoStrings.Join (q :: qs) <> EmptyString.
Proof.
  intros Hq. apply proper_not_empty in Hq. apply String.eqb_neq in Hq.
  destruct q as [|x q]; [contradiction|].
  destruct qs; discriminate.
Qed.

Lemma Join_no_final_slash (qs : list string) :
  Forall (fun e => Filepath.proper e = true) qs ->
  GoStrings.HasSuffix_slash (GoStrings.Join qs) = false.
Proof.
  intros Hqs. induction Hqs as [|q rest Hq Hrest IH]; [reflexivity|].
  destruct rest as [|r rest].
  - simpl. now apply HasSuffix_slash_no_slash, proper_no_slash.
  - change (GoStrings.Join (q :: r :: rest))
      with (q ++ String "/" (GoStrings.Join (r :: rest))).
    rewrite HasSuffix_slash_app by discriminate.
    change (String "/" (GoStrings.Join (r :: rest)))
      with ("/" ++ GoStrings.Join (r :: rest)).
    rewrite HasSuffix_slash_app; [exact IH|].
    inversion Hrest; subst. now apply Join_not_empty.
Qed.

Lemma Join_then_slash (qs : list string) :
  qs <> [] ->
  GoStrings.Join qs ++ "/"
  = String.concat EmptyString (map (fun q => q ++ "/") qs).
Proof.
  intros Hne. induction qs as [|q rest IH]; [contradiction|].
  destruct rest as [|r rest]; [reflexivity|].
  change (GoStrings.Join (q :: r :: rest))
    with (q ++ "/" ++ GoStrings.Join (r :: rest)).
  rewrite !append_assoc, IH by discriminate.
  change (String.concat EmptyString
            (map (fun q0 => q0 ++ "/") (q :: r :: rest)))
    with ((q ++ "/")
          ++ String.concat EmptyString
               (map (fun q0 => q0 ++ "/") (r :: rest))).
  now rewrite append_assoc.
Qed.

Lemma Join_app (rs qs : list string) :
  rs <> [] -> qs <> [] ->
  GoStrings.Join (rs ++ qs)
  = GoStrings.Join rs ++ "/" ++ GoStrings.Join qs.
Proof.
  intros Hr Hq. induction rs as [|r rest IH]; [contradiction|].
  destruct rest as [|r' rest].
  - simpl. destruct qs; [contradiction | reflexivity].
  - change (GoStrings.Join ((r :: r' :: rest) ++ qs))
      with (r ++ "/" ++ GoStrings.Join ((r' :: rest) ++ qs)).
    rewrite IH by discriminate.
    change (GoStrings.Join (r :: r' :: rest))
      with (r ++ "/" ++ GoStrings.Join (r' :: rest)).
    now rewrite !append_assoc.
Qed.

(** X10. The path shown in the title and the heading of a page begins
    and ends with a slash whatever the request: it is a slash followed by
    each element of the cleaned request path with a slash after it, and
    none of these elements is empty, [.] or [..]. *)
Theorem X10_title_path (c : Context) :
  exists qs,
    qs = Filepath.elements (Filepath.Clean ("/" ++ Param_filepath c))
    /\ Forall (fun e => Filepath.proper e = true) qs
    /\ pathFrm c
       = "/" ++ String.concat EmptyString (map (fun q => q ++ "/") qs)
    /\ GoStrings.HasPrefix_slash (pathFrm c) = true
    /\ GoStrings.HasSuffix_slash (pathFrm c) = true.
Proof.
  destruct (Clean_request_shape (Param_filepath c)) as [qs [Hqs [Hq Hqe]]].
  exists qs. split; [now symmetry|]. split; [exact Hqs|].
  assert (pathFrm c
          = "/" ++ String.concat EmptyString (map (fun q => q ++ "/") qs))
    as Hp.
  { unfold pathFrm. rewrite Hq. destruct qs as [|q rest]; [reflexivity|].
    rewrite HasSuffix_slash_app by (inversion Hqs; now apply Join_not_empty).
    rewrite (Join_no_final_slash _ Hqs). simpl negb. cbv iota.
    rewrite append_assoc. f_equal. apply Join_then_slash. discriminate. }
  split; [exact Hp|]. split; [now rewrite Hp|].
  unfold pathFrm.
  destruct (GoStrings.HasSuffix_slash
              (Filepath.Clean ("/" ++ Param_filepath c))) eqn:Hs;
    cbn [negb]; [exact Hs|].
  rewrite HasSuffix_slash_app by discriminate. reflexivity.
Qed.

Example title_paths :
  pathFrm (Demo.request "/") = "/"
  /\ pathFrm (Demo.request "/sub") = "/sub/"
  /\ pathFrm (Demo.request "//a/./b/../c/") = "/a/c/"
  /\ pathFrm (Demo.request "/../..") = "/".
Proof. repeat split. Qed.

(** The path a request resolves to, element by element. *)
Lemma resolve_elements (h : StaticHandler) (c : Context) :
  Filepath.is_abs_clean (Root h) = true ->
  exists rs qs,
    Forall (fun e => Filepath.proper e = true) rs
    /\ Forall (fun e => Filepath.proper e = true) qs
    /\ Root h = "/" ++ GoStrings.Join rs
    /\ Filepath.Clean ("/" ++ Param_filepath c) = "/" ++ GoStrings.Join qs
    /\ resolve h c = "/" ++ GoStrings.Join (rs ++ qs).
Proof.
  intros Habs.
  destruct (abs_clean_shape (Root h) Habs) as [rs [Hrs [Hroot Hre]]].
  destruct (Clean_request_shape (Param_filepath c)) as [qs [Hqs [Hq Hqe]]].
  exists rs, qs. repeat split; auto.
  unfold resolve, Filepath.FromSlash, Filepath.Join.
  assert (String.eqb (Root h) EmptyString = false) as Hne
    by (rewrite Hroot; reflexivity).
  rewrite Hne. simpl negb. cbv iota.
  change (Root h ++ "/" ++ Filepath.Clean ("/" ++ Param_filepath c))
    with (Root h ++ String "/" (Filepath.Clean ("/" ++ Param_filepath c))).
  rewrite Clean_rooted by (rewrite Hroot; reflexivity).
  rewrite Split_app_slash.
  destruct (Split_rooted_Join rs Hrs) as [Hr1 Hr2].
  destruct (Split_rooted_Join qs Hqs) as [Hq1 Hq2].
  rewrite clean_elems_plain.
  - rewrite filter_app. rewrite Hroot at 1. now rewrite Hr2, Hq, Hq2.
  - apply Forall_app. split.
    + rewrite Hroot. exact Hr1.
    + rewrite Hq. exact Hq1.
Qed.

(** X11. Joining the cleaned request path under the root is plain
    concatenation: a request that cleans to [/] resolves to the root
    itself, and any other request resolves to the root followed by the
    cleaned request path (to the cleaned request path alone when the root
    is [/]).  The root is rooted and clean, as [filepath.Abs] returns
    it. *)
Theorem X11_resolved_path (h : StaticHandler) (c : Context) :
  Filepath.is_abs_clean (Root h) = true ->
  let q := Filepath.Clean ("/" ++ Param_filepath c) in
  (q = "/" -> resolve h c = Root h)
  /\ (q <> "/" -> Root h = "/" -> resolve h c = q)
  /\ (q <> "/" -> Root h <> "/" -> resolve h c = Root h ++ q).
Proof.
  intros Habs q. subst q.
  destruct (resolve_elements h c Habs)
    as [rs [qs [Hrs [Hqs [Hroot [Hq Hres]]]]]].
  rewrite Hq, Hroot, Hres.
  assert (forall ps, Forall (fun e => Filepath.proper e = true) ps ->
                     "/" ++ GoStrings.Join ps = "/" -> ps = []) as Hnil.
  { intros [|p ps] Hps E; [reflexivity|]. exfalso.
    inversion Hps; subst.
    apply (Join_not_empty p ps); [assumption|].
    now inversion E. }
  split; [|split].
  - intros E. rewrite (Hnil qs Hqs E). now rewrite app_nil_r.
  - intros _ E. now rewrite (Hnil rs Hrs E).
  - intros Eq Er.
    destruct rs as [|r rs]; [contradiction|].
    destruct qs as [|q qs]; [contradiction|].
    rewrite Join_app by discriminate. now rewrite !append_assoc.
Qed.

Lemma X11_resolved_path_witness :
  resolve Demo.handler (Demo.request "/sub/../sub//") = "/srv/www" ++ "/sub"
  /\ resolve Demo.handler (Demo.request "/sub/..") = "/srv/www".
Proof.
  destruct (X11_resolved_path Demo.handler (Demo.request "/sub/../sub//")
              eq_refl) as [_ [_ H3]].
  destruct (X11_resolved_path Demo.handler (Demo.request "/sub/..")
              eq_refl) as [H1 _].
  split.
  - apply H3; discriminate.
  - apply H1. reflexivity.
Defined.

(* ================================================================== *)
(** * Further properties of [Items] *)

(** In a slice in order, an item that stands before another is not
    after it in the order. *)
Lemma in_order_pair (l1 l2 l3 : list Item) (a b : Item) :
  in_order (l1 ++ a :: l2 ++ b :: l3) -> spec_before b a = false.
Proof.
  unfold in_order. induction l1 as [|x l1 IH]; simpl; intros Hs.
  - apply StronglySorted_inv in Hs. destruct Hs as [_ Hall].
    rewrite Forall_forall in Hall. apply Hall.
    apply in_or_app. right. now left.
  - apply StronglySorted_inv in Hs. now apply IH.
Qed.

(** X12. In the sorted listing every directory stands before every
    file; among directories, and among files, every name that begins
    with a dot stands before every name that does not; and two items of
    the same kind and the same hiddenness stand in the bytewise order of
    their names. *)
Theorem X12_sorted_blocks (items sorted : list Item) :
  all_named items ->
  Sort items = Returned sorted ->
  (sorted = filter IsDir sorted
            ++ filter (fun it => negb (IsDir it)) sorted)%list
  /\ forall l1 a l2 b l3,
       sorted = (l1 ++ a :: l2 ++ b :: l3)%list ->
       (IsDir b = true -> IsDir a = true)
       /\ (IsDir a = IsDir b ->
           starts_with_dot (Name b) = true ->
           starts_with_dot (Name a) = true)
       /\ (IsDir a = IsDir b ->
           starts_with_dot (Name a) = starts_with_dot (Name b) ->
           String.ltb (Name b) (Name a) = false).
Proof.
  intros Hn Hsort.
  destruct (Sort_sorted items Hn) as [s [Hs [_ Hord]]].
  rewrite Hsort in Hs. inversion Hs; subst s. clear Hs.
  split.
  - clear - Hord. unfold in_order in Hord.
    induction Hord as [|h t Hs IH Hall]; [reflexivity|].
    simpl. destruct (IsDir h) eqn:Hh; simpl.
    + now rewrite <- IH.
    + assert (filter IsDir t = []) as ->.
      { clear IH Hs. induction t as [|x t IHt]; [reflexivity|].
        inversion Hall as [|? ? Hx Ht]; subst. simpl.
        destruct (IsDir x) eqn:Hx'.
        - unfold spec_before in Hx. rewrite Hx', Hh in Hx. discriminate.
        - now apply IHt. }
      simpl. f_equal.
      clear IH Hs. induction t as [|x t IHt]; [reflexivity|].
      inversion Hall as [|? ? Hx Ht]; subst. simpl.
      destruct (IsDir x) eqn:Hx'.
      * unfold spec_before in Hx. rewrite Hx', Hh in Hx. discriminate.
      * simpl. f_equal. now apply IHt.
  - intros l1 a l2 b l3 ->.
    pose proof (in_order_pair _ _ _ _ _ Hord) as Hba.
    unfold spec_before in Hba.
    repeat split.
    + intros Hb. rewrite Hb in Hba. destruct (IsDir a); [reflexivity|].
      discriminate.
    + intros Hk Hd. rewrite Hd, <- Hk in Hba.
      destruct (IsDir a), (starts_with_dot (Name a));
        try reflexivity; discriminate.
    + intros Hk Hd. rewrite <- Hk, <- Hd in Hba.
      destruct (IsDir a), (starts_with_dot (Name a)); exact Hba.
Qed.

Lemma X12_sorted_blocks_witness :
  exists sorted,
    Sort DemoItems.root_items = Returned sorted
    /\ (sorted = filter IsDir sorted
                 ++ filter (fun it => negb (IsDir it)) sorted)%list
    /\ map IsDir sorted = [true; false; false].
Proof.
  destruct (Sort DemoItems.root_items) as [sorted|] eqn:Hsort;
    [|vm_compute in Hsort; discriminate].
  assert (all_named DemoItems.root_items) as Hn
    by (repeat constructor; discriminate).
  destruct (X12_sorted_blocks DemoItems.root_items sorted Hn Hsort)
    as [Hblocks _].
  exists sorted. split; [reflexivity|]. split; [exact Hblocks|].
  vm_compute in Hsort. inversion Hsort. reflexivity.
Defined.

(** X13. Sorting a sorted listing changes nothing, when no two items
    agree on kind and name. *)
Theorem X13_sort_idempotent (items sorted : list Item) :
  all_named items ->
  NoDup (map key items) ->
  Sort items = Returned sorted ->
  Sort sorted = Returned sorted.
Proof.
  intros Hn Hnd Hsort.
  destruct (Sort_sorted items Hn) as [s [Hs [Hperm Hord]]].
  rewrite Hsort in Hs. inversion Hs; subst s. clear Hs.
  assert (all_named sorted) as Hn'.
  { unfold all_named in *. rewrite Forall_forall in *. intros it Hin.
    apply Hn. now apply (Permutation_in _ (Permutation_sym Hperm)). }
  destruct (Sort_sorted sorted Hn') as [again [Hagain [Hperm' Hord']]].
  rewrite Hagain. f_equal. symmetry.
  apply in_order_unique; auto.
  eapply Permutation_NoDup; [|exact Hnd]. now apply Permutation_map.
Qed.

Lemma X13_sort_idempotent_witness :
  exists sorted,
    Sort DemoItems.root_items = Returned sorted
    /\ Sort sorted = Returned sorted.
Proof.
  destruct (Sort DemoItems.root_items) as [sorted|] eqn:Hsort;
    [|vm_compute in Hsort; discriminate].
  exists sorted. split; [reflexivity|].
  apply (X13_sort_idempotent DemoItems.root_items sorted).
  - repeat constructor; discriminate.
  - vm_compute. repeat constructor; simpl; intuition discriminate.
  - exact Hsort.
Defined.

(** ** [Swap], [Add], [Len] and [Join] *)

Lemma store_length (l : list Item) (i : nat) (x : Item) :
  List.length (store l i x) = List.length l.
Proof.
  revert i; induction l as [|y l IH]; intros [|i]; simpl; auto.
Qed.

Lemma nth_error_store (l : list Item) (i j : nat) (x : Item) :
  nth_error (store l i x) j
  = if Nat.eqb i j
    then (if Nat.ltb i (List.length l) then Some x else None)
    else nth_error l j.
Proof.
  revert i j; induction l as [|y l IH]; intros i j.
  - destruct i, j; simpl; try reflexivity.
    now destruct (Nat.eqb i j).
  - destruct i as [|i], j as [|j]; simpl; try reflexivity.
    rewrite IH. reflexivity.
Qed.

(** Writing [x] at an index pushes out what was there. *)
Lemma store_perm (l : list Item) (i : nat) (a x : Item) :
  nth_error l i = Some a -> Permutation (x :: l) (a :: store l i x).
Proof.
  revert i; induction l as [|y l IH]; intros [|i] H; simpl in *;
    try discriminate.
  - inversion H; subst. apply perm_swap.
  - eapply Permutation_trans; [apply perm_swap|].
    eapply Permutation_trans; [apply perm_skip, IH, H|].
    apply perm_swap.
Qed.

(** X14. [Swap] exchanges the items at two indices of the slice and
    leaves every other item in place: the result is a rearrangement of
    the same length, and swapping again restores the slice.  It panics
    exactly when an index is past the end. *)
Theorem X14_swap (items : list Item) (i j : nat) :
  (i < Len items /\ j < Len items ->
   exists swapped,
     Swap items i j = Returned swapped
     /\ Len swapped = Len items
     /\ nth_error swapped i = nth_error items j
     /\ nth_error swapped j = nth_error items i
     /\ (forall k, k <> i -> k <> j ->
                   nth_error swapped k = nth_error items k)
     /\ Permutation items swapped
     /\ Swap swapped i j = Returned items)
  /\ (Len items <= i \/ Len items <= j -> Swap items i j = Panicked).
Proof.
  unfold Len, Swap. split.
  - intros [Hi Hj].
    destruct (nth_error items i) as [a|] eqn:Ha;
      [|apply nth_error_None in Ha; lia].
    destruct (nth_error items j) as [b|] eqn:Hb;
      [|apply nth_error_None in Hb; lia].
    assert (Hlt : forall n m, n < m -> Nat.ltb n m = true)
      by (intros n m H; now apply Nat.ltb_lt).
    assert (nth_error (store (store items i b) j a) i = Some b) as Hsi.
    { rewrite !nth_error_store, store_length, (Hlt _ _ Hi), (Hlt _ _ Hj).
      rewrite Nat.eqb_refl.
      destruct (Nat.eqb_spec j i) as [->|_]; [|reflexivity].
      congruence. }
    assert (nth_error (store (store items i b) j a) j = Some a) as Hsj.
    { rewrite nth_error_store, store_length, (Hlt _ _ Hj).
      now rewrite Nat.eqb_refl. }
    assert (forall k, k <> i -> k <> j ->
              nth_error (store (store items i b) j a) k
              = nth_error items k) as Hsk.
    { intros k Hki Hkj. rewrite !nth_error_store.
      destruct (Nat.eqb_spec j k); [congruence|].
      destruct (Nat.eqb_spec i k); [congruence | reflexivity]. }
    exists (store (store items i b) j a).
    split; [reflexivity|]. split; [now rewrite !store_length|].
    split; [congruence|]. split; [congruence|]. split; [exact Hsk|].
    split.
    + apply (Permutation_cons_inv (a := b)).
      eapply Permutation_trans; [apply (store_perm items i a b Ha)|].
      apply (store_perm (store items i b) j b a).
      rewrite nth_error_store, (Hlt _ _ Hi).
      destruct (Nat.eqb_spec i j); [reflexivity | exact Hb].
    + rewrite Hsi, Hsj. f_equal.
      apply nth_error_ext. intros k.
      rewrite !nth_error_store, !store_length.
      rewrite (Hlt _ _ Hi), (Hlt _ _ Hj).
      destruct (Nat.eqb_spec j k) as [->|Hjk].
      * symmetry. exact Hb.
      * destruct (Nat.eqb_spec i k) as [->|Hik];
          [symmetry; exact Ha | reflexivity].
  - intros [Hi|Hj].
    + apply nth_error_None in Hi. now rewrite Hi.
    + apply nth_error_None in Hj. rewrite Hj.
      now destruct (nth_error items i).
Qed.

Lemma length_append (a b : string) :
  String.length (a ++ b) = String.length a + String.length b.
Proof. induction a as [|x a IH]; simpl; [reflexivity | now rewrite IH]. Qed.

Lemma Items_Join_cons (it : Item) (rest : list Item) (sep : string) :
  rest <> [] ->
  Items_Join (it :: rest) sep
  = Formatted it ++ sep ++ Items_Join rest sep.
Proof. destruct rest; [contradiction | reflexivity]. Qed.

(** X15. [Join] puts the separator between the lines and nowhere else:
    the text of an empty slice is empty, the text of two slices put
    together is their texts with one separator between them, adding an
    item to a slice that has some appends the separator and the line of
    the item, and the text has one separator less than the slice has
    items. *)
Theorem X15_join (a b : list Item) (it : Item) (sep : string) :
  Items_Join [] sep = EmptyString
  /\ (a <> [] -> b <> [] ->
      Items_Join (a ++ b) sep = Items_Join a sep ++ sep ++ Items_Join b sep)
  /\ Len (Add a it) = S (Len a)
  /\ (a <> [] ->
      Items_Join (Add a it) sep = Items_Join a sep ++ sep ++ Formatted it)
  /\ Items_Join (Add [] it) sep = Formatted it
  /\ (a <> [] ->
      String.length (Items_Join a sep)
      = list_sum (map (fun x => String.length (Formatted x)) a)
        + (Len a - 1) * String.length sep).
Proof.
  assert (forall x y : list Item, x <> [] -> y <> [] ->
            Items_Join (x ++ y) sep
            = Items_Join x sep ++ sep ++ Items_Join y sep) as Happ.
  { intros x y Hx Hy. induction x as [|h t IH]; [contradiction|].
    destruct t as [|h' t].
    - simpl app. now rewrite Items_Join_cons.
    - change ((h :: h' :: t) ++ y)%list with (h :: ((h' :: t) ++ y))%list.
      rewrite Items_Join_cons by discriminate.
      rewrite IH by discriminate.
      rewrite (Items_Join_cons h (h' :: t)) by discriminate.
      now rewrite !append_assoc. }
  split; [reflexivity|]. split; [apply Happ|].
  split; [unfold Len, Add; rewrite length_app; simpl; lia|].
  split; [intros Ha; unfold Add; now rewrite Happ by (auto; discriminate)|].
  split; [reflexivity|].
  intros Ha. unfold Len. induction a as [|h t IH]; [contradiction|].
  destruct t as [|h' t]; [simpl; lia|].
  rewrite Items_Join_cons by discriminate.
  rewrite !length_append, IH by discriminate.
  simpl map. simpl list_sum. simpl List.length. lia.
Qed.

Lemma X15_join_witness :
  Items_Join (DemoItems.root_items ++ [Demo.long_item]) GoStrings.newline
  = Items_Join DemoItems.root_items GoStrings.newline
    ++ GoStrings.newline ++ Items_Join [Demo.long_item] GoStrings.newline.
Proof.
  destruct (X15_join DemoItems.root_items [Demo.long_item] Demo.long_item
              GoStrings.newline) as [_ [Happ _]].
  apply Happ; discriminate.
Defined.

(* ================================================================== *)
(** * Further properties of the rendered line *)

Lemma RuneCount_ascii (s : string) :
  is_ascii s = true -> Fmt.RuneCountInString s = String.length s.
Proof.
  induction s as [|c s IH]; [reflexivity|]. simpl. intros H.
  apply andb_prop in H. destruct H as [Hc Hs].
  rewrite Hc. now rewrite IH.
Qed.

Lemma is_ascii_app (a b : string) :
  is_ascii (a ++ b) = is_ascii a && is_ascii b.
Proof.
  induction a as [|c a IH]; [reflexivity|]. simpl.
  now rewrite IH, andb_assoc.
Qed.

Lemma is_ascii_substring (n m : nat) (s : string) :
  is_ascii s = true -> is_ascii (String.substring n m s) = true.
Proof.
  revert n m; induction s as [|c s IH]; intros n m H.
  - now destruct n, m.
  - simpl in H. apply andb_prop in H. destruct H as [Hc Hs].
    destruct n as [|n]; simpl.
    + destruct m as [|m]; [reflexivity|]. simpl. now rewrite Hc, IH.
    + now apply IH.
Qed.

Lemma spaces_length (n : nat) : String.length (GoStrings.spaces n) = n.
Proof. induction n as [|n IH]; simpl; [reflexivity | now rewrite IH]. Qed.

Lemma formattedName_length (name : string) :
  String.length (formattedName name) <= 50.
Proof.
  unfold formattedName.
  destruct (Nat.ltb_spec 50 (String.length name)) as [Hlt|Hle];
    [|exact Hle].
  destruct (substring_head 47 name) as [tail [_ Hl]]; [lia|].
  rewrite length_append, Hl. simpl. lia.
Qed.

Lemma formattedName_ascii (name : string) :
  is_ascii name = true -> is_ascii (formattedName name) = true.
Proof.
  intros H. unfold formattedName.
  destruct (Nat.ltb 50 (String.length name)); [|exact H].
  rewrite is_ascii_app, is_ascii_substring by exact H. reflexivity.
Qed.

(** X16. The link text of a line never has more than 50 bytes, and for
    a name made of ASCII bytes the link text with its closing tag fills
    a field of exactly 54 bytes, so that the date starts at the same
    column on every such line; the size of a directory is a dash at the
    end of a field of 19. *)
Theorem X16_columns (fs : Os.FileSystem) (path : string)
  (itemsAll : list Os.FileInfo) (items : list Item) (it : Item) :
  scan fs path itemsAll [] = Listed items ->
  In it items ->
  String.length (formattedName (Name it)) <= 50
  /\ (is_ascii (Name it) = true ->
      exists field modTime sizeField,
        Formatted it
        = anchor (Name it) ++ field ++ " " ++ modTime ++ " " ++ sizeField
        /\ String.length field = 54
        /\ (exists filler,
              field = formattedName (Name it) ++ "</a>" ++ filler
              /\ filler = GoStrings.spaces (String.length filler))
        /\ (IsDir it = true -> sizeField = GoStrings.spaces 18 ++ "-")).
Proof.
  intros Hscan Hin. split; [apply formattedName_length|].
  intros Hascii.
  destruct (scan_listed_in _ _ _ _ _ Hscan Hin) as [fi [_ [info [-> _]]]].
  destruct (entry_shape (Os.Name fi) (Time.Format (Os.ModTime fi)) info)
    as [_ [Hdir Hfmt]].
  set (it := entry (Os.Name fi) (Time.Format (Os.ModTime fi)) info) in *.
  exists (Fmt.pad_right 54 (formattedName (Name it) ++ "</a>")),
    (Time.Format (Os.ModTime fi)),
    (Fmt.pad_left 19
       (if Os.IsDir info then "-" else Fmt.decimal (Os.Size info))).
  split; [rewrite Hfmt; reflexivity|].
  assert (Fmt.RuneCountInString (formattedName (Name it) ++ "</a>")
          = String.length (formattedName (Name it)) + 4) as Hrunes.
  { rewrite RuneCount_ascii.
    - now rewrite length_append.
    - rewrite is_ascii_app, formattedName_ascii by exact Hascii.
      reflexivity. }
  pose proof (formattedName_length (Name it)) as Hlen.
  split; [|split].
  - unfold Fmt.pad_right.
    rewrite length_append, spaces_length, Hrunes, length_append.
    change (String.length "</a>") with 4. lia.
  - exists (GoStrings.spaces
              (54 - Fmt.RuneCountInString
                      (formattedName (Name it) ++ "</a>"))).
    split; [unfold Fmt.pad_right; now rewrite append_assoc|].
    now rewrite spaces_length.
  - intros Hd. rewrite Hdir in Hd. now rewrite Hd.
Qed.

Lemma X16_columns_witness :
  String.length (formattedName (Name Demo.long_item)) <= 50
  /\ exists field modTime sizeField,
       Formatted Demo.long_item
       = anchor (Name Demo.long_item) ++ field ++ " " ++ modTime ++ " "
         ++ sizeField
       /\ String.length field = 54.
Proof.
  destruct (X16_columns Demo.fs "/srv/www/sub"
              [Demo.file Demo.long_name 7 Demo.t2020] [Demo.long_item]
              Demo.long_item eq_refl (or_introl eq_refl)) as [Hlen Hcols].
  split; [exact Hlen|].
  destruct (Hcols eq_refl) as [field [modTime [sizeField [Hf [Hl _]]]]].
  now exists field, modTime, sizeField.
Defined.

(** ** The TLS bootstrap *)

Import X509 Boot.

Example durations :
  (-24 * Time.Hour = -86400000000000)%Z
  /\ (26280 * Time.Hour = 94608000000000000)%Z
  /\ (26280 * Time.Hour < 2 ^ 63)%Z
  /\ Z.shiftl 1 128 = (2 ^ 128)%Z
  /\ Z.lor KeyUsageKeyEncipherment KeyUsageDigitalSignature = 5%Z.
Proof. repeat split. Qed.

(** C8. Every certificate [selfCert] has signed, the CA's ([parent] nil)
    and the leaf's, is made from a template whose serial number is the
    answer of [rand.Int] for the bound [2^128] (a value of [[0, 2^128)]
    under the contract of [rand.Int]), whose validity starts 24 hours
    before one reading of the clock and ends 26280 hours after the next,
    whose key usage is key encipherment and digital signature with server
    authentication as extended usage, and whose signature algorithm is
    ECDSA with SHA-256; the key certified is the public half of the key
    generated on P-384. *)
Theorem C8_certificate_template (w : World) (n : nat)
  (parent : option Certificate) (parentKey : option PrivateKey)
  (o : Obs) (template issuer : Certificate) (pub : PublicKey)
  (priv : option PrivateKey) :
  In o (fst (run w n (selfCert parent parentKey))) ->
  created o = Some (template, issuer, pub, priv) ->
  exists certKey serial now1 now2,
    w _ n (GenerateKey P384) = Os.Ok certKey
    /\ w _ (1 + n) (RandInt (2 ^ 128)) = Os.Ok serial
    /\ w _ (2 + n) Now = now1
    /\ w _ (3 + n) Now = now2
    /\ (rand_in_range w -> (0 <= serial < 2 ^ 128)%Z)
    /\ template
       = mkCertificate serial ["Pacur HTTP Server"]
           (now1 - 24 * Time.Hour)%Z (now2 + 26280 * Time.Hour)%Z
           (Z.lor KeyUsageKeyEncipherment KeyUsageDigitalSignature)
           [ExtKeyUsageServerAuth] true ECDSAWithSHA256
    /\ pub = Public certKey
    /\ match parent with
       | None => issuer = template /\ priv = Some certKey
       | Some p => issuer = p /\ priv = parentKey
       end.
Proof.
  unfold selfCert.
  assert ((2 ^ 128)%Z = Z.shiftl 1 128) as -> by reflexivity.
  remember (Z.shiftl 1 128) as limit eqn:Hlimit.
  remember (-24 * Time.Hour)%Z as before eqn:Hbefore.
  remember (26280 * Time.Hour)%Z as after eqn:Hafter.
  remember (Z.lor KeyUsageKeyEncipherment KeyUsageDigitalSignature)
    as usage eqn:Husage.
  intros Hin Hcreated. cbn in Hin.
  destruct (w _ n (GenerateKey P384)) as [certKey|e] eqn:Hkey; cbn in Hin.
  2: { destruct Hin as [<-|[]]. discriminate. }
  destruct (w _ (S n) (RandInt limit)) as [serial|e] eqn:Hserial;
    cbn in Hin.
  2: { destruct Hin as [<-|[<-|[]]]; discriminate. }
  exists certKey, serial, (w _ (2 + n) Now), (w _ (3 + n) Now).
  split; [reflexivity|]. split; [exact Hserial|].
  split; [reflexivity|]. split; [reflexivity|].
  split; [intros Hrand; exact (Hrand _ _ _ Hserial)|].
  cbn [Nat.add].
  assert (forall t : Z, Time.Add t before = (t - 24 * Time.Hour)%Z)
    as E1 by (intros t; unfold Time.Add; lia).
  assert (forall t : Z, Time.Add t after = (t + after)%Z)
    as E2 by reflexivity.
  rewrite <- E1, <- E2. clear E1 E2.
  destruct parent as [p|]; cbn in Hin.
  - match type of Hin with
    | context [w ?X ?m (CreateCertificate ?t ?i ?k ?s)] =>
        destruct (w X m (CreateCertificate t i k s)) as [der|e]; cbn in Hin
    end.
    + destruct (w _ (S (S (S (S (S n))))) (ParseCertificate der));
        cbn in Hin;
        destruct Hin as [<-|[<-|[<-|[<-|[<-|[<-|[]]]]]]];
        try discriminate; cbn in Hcreated; inversion Hcreated; subst;
        repeat split; reflexivity.
    + destruct Hin as [<-|[<-|[<-|[<-|[<-|[]]]]]];
        try discriminate; cbn in Hcreated; inversion Hcreated; subst;
        repeat split; reflexivity.
  - match type of Hin with
    | context [w ?X ?m (CreateCertificate ?t ?i ?k ?s)] =>
        destruct (w X m (CreateCertificate t i k s)) as [der|e]; cbn in Hin
    end.
    + destruct (w _ (S (S (S (S (S n))))) (ParseCertificate der));
        cbn in Hin;
        destruct Hin as [<-|[<-|[<-|[<-|[<-|[<-|[]]]]]]];
        try discriminate; cbn in Hcreated; inversion Hcreated; subst;
        repeat split; reflexivity.
    + destruct Hin as [<-|[<-|[<-|[<-|[<-|[]]]]]];
        try discriminate; cbn in Hcreated; inversion Hcreated; subst;
        repeat split; reflexivity.
Qed.

(** Minting the CA certificate in a world where every call succeeds. *)
Lemma C8_certificate_template_witness :
  exists o template issuer pub priv,
    In o (fst (run (DemoWorld.world None) 2 (selfCert None None)))
    /\ created o = Some (template, issuer, pub, priv)
    /\ SerialNumber template = (2 ^ 127)%Z
    /\ (NotBefore template
        = Demo.t2023 + 4 - 24 * Time.Hour)%Z
    /\ (NotAfter template
        = Demo.t2023 + 5 + 26280 * Time.Hour)%Z
    /\ KeyUsage template = 5%Z
    /\ ExtKeyUsages template = [ExtKeyUsageServerAuth]
    /\ SigAlgorithm template = ECDSAWithSHA256
    /\ issuer = template.
Proof.
  pose (o := nth 4 (fst (run (DemoWorld.world None) 2 (selfCert None None)))
               (obs Now 0%Z)).
  assert (In o (fst (run (DemoWorld.world None) 2 (selfCert None None))))
    as Hin by (vm_compute; tauto).
  destruct (created o) as [[[[template issuer] pub] priv]|] eqn:Hc;
    [|vm_compute in Hc; discriminate].
  destruct (C8_certificate_template (DemoWorld.world None) 2 None None
              o template issuer pub priv Hin Hc)
    as [certKey [serial [now1 [now2
         [_ [Hserial [Hnow1 [Hnow2 [_ [Htempl [_ [Hissuer _]]]]]]]]]]]].
  exists o, template, issuer, pub, priv.
  split; [exact Hin|]. split; [exact Hc|].
  vm_compute in Hserial. inversion Hserial; subst serial.
  vm_compute in Hnow1. vm_compute in Hnow2.
  subst now1 now2 template.
  repeat split. exact Hissuer.
Defined.

(** ** Failures of the bootstrap *)

(** C9. With TLS requested, when a step of the certificate bootstrap
    fails (generating the CA's or the leaf's key, drawing a serial number,
    signing or parsing a certificate, marshalling the private key, loading
    the key pair, creating the listener), the failing call is the last
    call the process makes: it never starts to serve.  The process panics
    with the error of the step, except for a key pair that does not load,
    where [main] returns without a panic. *)
Theorem C9_bootstrap_failure_is_fatal (w : World) (path host : string)
  (port : Z) :
  let r := run w 0 (main path host port true) in
  existsb bootstrap_failure (fst r) = true ->
  existsb serving (fst r) = false
  /\ exists o e,
       List.last (fst r) (obs Now 0%Z) = o
       /\ bootstrap_error o = Some e
       /\ existsb bootstrap_failure (removelast (fst r)) = false
       /\ snd r = (if keypair_loading o then Finished tt else Aborted e).
Proof.
  intros r. subst r. unfold main, selfCert, must, must_ok, ask, address.
  generalize (Fmt.decimal port). intros portText.
  run_world w.
  all: intros Hfail; try discriminate Hfail.
  all: split; [reflexivity|].
  all: eexists; eexists; split; [reflexivity|]; split; [reflexivity|];
       split; reflexivity.
Qed.

(** The leaf's serial number cannot be drawn: the process panics after
    ten calls; the key pair does not load: the process returns after
    eighteen.  Neither serves. *)
Lemma C9_bootstrap_failure_is_fatal_witness :
  (existsb bootstrap_failure
     (fst (run (DemoWorld.world (Some 9)) 0
             (main "/srv/www" "[::]" 8000 true))) = true
   /\ existsb serving
        (fst (run (DemoWorld.world (Some 9)) 0
                (main "/srv/www" "[::]" 8000 true))) = false
   /\ snd (run (DemoWorld.world (Some 9)) 0
             (main "/srv/www" "[::]" 8000 true))
      = Aborted (Os.ErrOther "refused"))
  /\ (existsb serving
        (fst (run (DemoWorld.world (Some 17)) 0
                (main "/srv/www" "[::]" 8000 true))) = false
      /\ snd (run (DemoWorld.world (Some 17)) 0
                (main "/srv/www" "[::]" 8000 true))
         = Finished tt).
Proof.
  split.
  - split; [reflexivity|].
    destruct (C9_bootstrap_failure_is_fatal (DemoWorld.world (Some 9))
                "/srv/www" "[::]" 8000 eq_refl) as [Hserve _].
    split; [exact Hserve | reflexivity].
  - destruct (C9_bootstrap_failure_is_fatal (DemoWorld.world (Some 17))
                "/srv/www" "[::]" 8000 eq_refl) as [Hserve _].
    split; [exact Hserve | reflexivity].
Defined.

(** When no step of the bootstrap fails, the server is started on the
    listener: the theorem above is not about a program that never
    serves. *)
Lemma main_serves_after_bootstrap (w : World) (path host : string)
  (port : Z) :
  let r := run w 0 (main path host port true) in
  existsb bootstrap_failure (fst r) = false ->
  (exists abs, w _ 0 (Abs path) = Os.Ok abs) ->
  existsb serving (fst r) = true.
Proof.
  intros r. subst r. unfold main, selfCert, must, must_ok, ask, address.
  generalize (Fmt.decimal port). intros portText.
  run_world w.
  all: intros Hfail [abs Habs]; try discriminate Hfail;
       try discriminate Habs; reflexivity.
Qed.

(** The listener is created for one protocol version, TLS 1.2, with the
    leaf's key pair as its only certificate. *)
Example listener_configuration :
  nth 18 (fst (run (DemoWorld.world None) 0
                 (main "/srv/www" "[::]" 8000 true))) (obs Now 0%Z)
  = obs (Listen "tcp" "[::]:8000"
           (mkConfig VersionTLS12 VersionTLS12
              [mkKeyPair [(2 ^ 127)%Z] [8%Z]]))
        (Os.Ok (mkListener 3)).
Proof. reflexivity. Qed.

(** In a world where every call succeeds, [main] signs two certificates,
    the CA's by itself and the leaf's by the CA, from templates that
    differ in nothing but the clock readings. *)
Example main_mints_ca_then_leaf :
  map (fun t => (KeyUsage (fst (fst (fst t))),
                 ExtKeyUsages (fst (fst (fst t))),
                 SigAlgorithm (fst (fst (fst t))),
                 snd t))
    (flat_map (fun o => match created o with
                        | Some t => [t]
                        | None => []
                        end)
       (fst (run (DemoWorld.world None) 0
               (main "/srv/www" "[::]" 8000 true))))
  = [ (5%Z, [ExtKeyUsageServerAuth], ECDSAWithSHA256,
       Some (mkPrivateKey 2));
      (5%Z, [ExtKeyUsageServerAuth], ECDSAWithSHA256,
       Some (mkPrivateKey 2)) ].
Proof. reflexivity. Qed.

(* ================================================================== *)
(** * Further properties of the start-up *)

Import Calls.

(** X17. Without [-tls] the server makes no call of the certificate
    bootstrap: it resolves the path, prints the line that names the
    absolute path and the address, and listens on [host:port]; an error
    of [filepath.Abs] panics before anything is printed, an error of the
    server panics.  This holds for the [main] of both files. *)
Theorem X17_plain_server (w : World) (path host : string) (port : Z) :
  let addr := host ++ ":" ++ Fmt.decimal port in
  let r := run w 0 (Boot.main path host port false) in
  let r' := run w 0 (Plain.main path host port) in
  existsb is_tls_call (fst r) = false
  /\ existsb is_tls_call (fst r') = false
  /\ match w _ 0 (Abs path) with
     | Os.Err e =>
         r = ([obs (Abs path) (Os.Err e)], Aborted e)
         /\ r' = ([obs (Abs path) (Os.Err e)], Aborted e)
     | Os.Ok abs =>
         fst r
         = [obs (Abs path) (Os.Ok abs);
            obs (Printf ("Listening and serving " ++ abs ++ " on http://"
                         ++ addr ++ GoStrings.newline)) tt;
            obs (ListenAndServe addr) (w _ 2 (ListenAndServe addr))]
         /\ fst r'
            = [obs (Abs path) (Os.Ok abs);
               obs (Printf ("Listening and serving " ++ abs ++ " on "
                            ++ addr ++ GoStrings.newline)) tt;
               obs (ListenAndServe addr) (w _ 2 (ListenAndServe addr))]
         /\ snd r = snd r'
         /\ snd r = match w _ 2 (ListenAndServe addr) with
                    | Some e => Aborted e
                    | None => Finished tt
                    end
     end.
Proof.
  intros addr r r'. subst addr r r'.
  unfold Boot.main, Plain.main, must, ask, address.
  generalize (Fmt.decimal port). intros portText.
  run_world w; repeat split.
Qed.


(** X19. With TLS, [main] signs at most two certificates.  The first is
    self-signed: its issuer is its own template and it is signed with the
    private half of the key it certifies.  The second certifies another
    generated key and is signed with the private key of the first, its
    issuer being the certificate parsed from the bytes of the first. *)
Theorem X19_chain (w : World) (path host : string) (port : Z) :
  let tr := fst (run w 0 (Boot.main path host port true)) in
  match signings tr with
  | [] => True
  | [(t1, i1, p1, k1)] =>
      i1 = t1 /\ exists caKey, k1 = Some caKey /\ p1 = Public caKey
  | [(t1, i1, p1, k1); (t2, i2, p2, k2)] =>
      i1 = t1
      /\ exists caKey caDer leafKey,
           k1 = Some caKey /\ p1 = Public caKey
           /\ In (obs (CreateCertificate t1 i1 p1 k1) (Os.Ok caDer)) tr
           /\ In (obs (ParseCertificate caDer) (Os.Ok i2)) tr
           /\ k2 = Some caKey
           /\ p2 = Public leafKey
           /\ nth_error tr 2 = Some (obs (GenerateKey P384) (Os.Ok caKey))
           /\ nth_error tr 8 = Some (obs (GenerateKey P384) (Os.Ok leafKey))
  | _ => False
  end.
Proof.
  intros tr. subst tr.
  unfold Boot.main, selfCert, must, must_ok, ask, address, signings.
  generalize (Fmt.decimal port). intros portText.
  run_world w.
  all: try exact I.
  all: try (split; [reflexivity|]; eexists; split; reflexivity).
  all: split; [reflexivity|]; eexists; eexists; eexists;
       repeat split; try reflexivity; simpl; tauto.
Qed.

(** In a world where every call succeeds the two keys differ and the
    leaf is signed with the CA's. *)
Example chain_of_the_demo_world :
  map (fun s => (snd (fst s), snd s))
    (signings (fst (run (DemoWorld.world None) 0
                      (Boot.main "/srv/www" "[::]" 8000 true))))
  = [ (mkPublicKey 2, Some (mkPrivateKey 2));
      (mkPublicKey 8, Some (mkPrivateKey 2)) ].
Proof. reflexivity. Qed.

(** X20. The TLS listener is created on [tcp] at [host:port] for one
    protocol version, TLS 1.2, as lowest and highest, with one
    certificate: the key pair loaded from the PEM block [CERTIFICATE] of
    the leaf's bytes and the PEM block [EC PRIVATE KEY] of the leaf's
    marshalled key.  The server serves on the listener that [tls.Listen]
    returned. *)
Theorem X20_listener (w : World) (path host : string) (port : Z)
  (o : Obs) :
  let tr := fst (run w 0 (Boot.main path host port true)) in
  In o tr ->
  (forall network addr config,
      listened o = Some (network, addr, config) ->
      network = "tcp"
      /\ addr = host ++ ":" ++ Fmt.decimal port
      /\ MinVersion config = VersionTLS12
      /\ MaxVersion config = VersionTLS12
      /\ VersionTLS12 = 771%Z
      /\ exists keypair certPem keyPem leafDer keyBytes leafKey t i k,
           Certificates config = [keypair]
           /\ In (obs (X509KeyPair certPem keyPem) (Os.Ok keypair)) tr
           /\ In (obs (EncodeToMemory (mkBlock "CERTIFICATE" leafDer))
                    certPem) tr
           /\ In (obs (EncodeToMemory (mkBlock "EC PRIVATE KEY" keyBytes))
                    keyPem) tr
           /\ In (obs (MarshalECPrivateKey leafKey) (Os.Ok keyBytes)) tr
           /\ nth_error tr 12
              = Some (obs (CreateCertificate t i (Public leafKey) k)
                        (Os.Ok leafDer)))
  /\ (forall l,
        served_on o = Some l ->
        exists network addr config,
          In (obs (Listen network addr config) (Os.Ok l)) tr).
Proof.
  intros tr. subst tr.
  unfold Boot.main, selfCert, must, must_ok, ask, address.
  generalize (Fmt.decimal port). intros portText.
  run_world w.
  all: intros Hin; member_of Hin.
  all: split; [intros network addr config Hl; try discriminate Hl
              | intros l Hl; try discriminate Hl].
  all: inversion Hl; subst.
  all: first [ solve [do 3 eexists; simpl; tauto]
             | repeat split; do 9 eexists;
               repeat split; try reflexivity; simpl; tauto ].
Qed.

Lemma X20_listener_witness :
  exists o network addr config,
    In o (fst (run (DemoWorld.world None) 0
                 (Boot.main "/srv/www" "[::]" 8000 true)))
    /\ listened o = Some (network, addr, config)
    /\ network = "tcp"
    /\ addr = "[::]:8000"
    /\ MinVersion config = 771%Z
    /\ MaxVersion config = 771%Z.
Proof.
  pose (tr := fst (run (DemoWorld.world None) 0
                     (Boot.main "/srv/www" "[::]" 8000 true))).
  pose (o := nth 18 tr (obs Now 0%Z)).
  assert (In o tr) as Hin by (vm_compute; tauto).
  destruct (listened o) as [[[network addr] config]|] eqn:Hl;
    [|vm_compute in Hl; discriminate].
  destruct (X20_listener (DemoWorld.world None) "/srv/www" "[::]" 8000 o Hin)
    as [Hlisten _].
  destruct (Hlisten network addr config Hl)
    as [Hn [Ha [Hmin [Hmax [Hv _]]]]].
  exists o, network, addr, config.
  split; [exact Hin|]. split; [exact Hl|]. split; [exact Hn|].
  split; [exact Ha|]. split; congruence.
Defined.
